(** * Recoverable: account recovery for a user model

    A shallow embedding of [lib/morphs/recoverable.js].  The morph adds four
    fields to a user schema, two instance methods ([generateRecoveryToken],
    [sendRecovery]) and two static methods ([requestRecover], [recover]).

    Every method is a chain of promise stages over a mutable in-memory
    document, a persistence layer, a messaging hook and an optional
    error-first callback [done].  The embedding threads a [World] (the stored
    documents, the clock, the random source position and the trace of
    observable calls) through a small promise monad in which a rejection keeps
    the world reached so far. *)

From Stdlib Require Import ZArith List String Ascii Bool Lia DecimalString.
Import ListNotations.

#[local] Open Scope string_scope.
#[local] Open Scope list_scope.
#[local] Open Scope Z_scope.

(** ** Documents *)

(** A JavaScript [Date], as milliseconds since the epoch. *)
Definition Date := Z.

(** The user document: the identifier given by the persistence layer, the two
    fields of the host model that the morph reads or writes ([email],
    [password]) and the four fields added by [schema.add], each defaulting to
    [null]. *)
Record Entity := mkEntity {
  _id : nat;
  email : string;
  password : string;
  recoveryToken : option string;
  recoveryTokenExpiryAt : option Date;
  recoverySentAt : option Date;
  recoveredAt : option Date
}.

Definition set_password (v : string) (r : Entity) : Entity :=
  mkEntity (_id r) (email r) v (recoveryToken r) (recoveryTokenExpiryAt r)
    (recoverySentAt r) (recoveredAt r).

Definition set_recoveryToken (v : option string) (r : Entity) : Entity :=
  mkEntity (_id r) (email r) (password r) v (recoveryTokenExpiryAt r)
    (recoverySentAt r) (recoveredAt r).

Definition set_recoveryTokenExpiryAt (v : option Date) (r : Entity) : Entity :=
  mkEntity (_id r) (email r) (password r) (recoveryToken r) v
    (recoverySentAt r) (recoveredAt r).

Definition set_recoverySentAt (v : option Date) (r : Entity) : Entity :=
  mkEntity (_id r) (email r) (password r) (recoveryToken r)
    (recoveryTokenExpiryAt r) v (recoveredAt r).

Definition set_recoveredAt (v : option Date) (r : Entity) : Entity :=
  mkEntity (_id r) (email r) (password r) (recoveryToken r)
    (recoveryTokenExpiryAt r) (recoverySentAt r) v.

(** ** Errors *)

(** [Error] is [new Error(message)]; [TypeError] is what the engine throws on
    a property access through [null]; [SyntaxError] is what [new RegExp]
    throws on a malformed pattern. *)
Inductive JsError :=
| Error (message : string)
| TypeError (message : string)
| SyntaxError (message : string).

(** ** Observable calls *)

(** What a caller or a collaborator sees of a run, in order: the invocations
    of the optional callback [done(error, recoverable)], of the messaging hook
    [send], of [save], of [encryptPassword] and of [tokenizer.match]. *)
Inductive Event :=
| Done (error : option JsError) (recoverable : option Entity)
| Send (subject : string) (payload : Entity)
| Save (doc : Entity)
| EncryptPassword (doc : Entity)
| TokenizerMatch (seed token subject : string).

(** ** Configuration and collaborators *)

(** [options.recoverable]. *)
Record RecoverableOptions := mkOptions {
  tokenLifeSpan : Z;
  tokenType : option string
}.

(** The object returned by [Utils.tokenizer(seed)]. *)
Record Tokenizer := mkTokenizer {
  encrypt : string -> string;
  matches : string -> string -> bool
}.

(** [lib/utils], the helper module the morph requires from the directory
    above it.  [isAfter] is kept abstract: all that is assumed is that
    it tells a strictly later second date from a strictly earlier one.  The
    second argument may be [null], since the morph passes a stored field. *)
Record Utils := mkUtils {
  isAfter : Date -> option Date -> bool;
  isAfter_later :
    forall first second : Date,
      first < second -> isAfter first (Some second) = true;
  isAfter_earlier :
    forall first second : Date,
      second < first -> isAfter first (Some second) = false;
  tokenizer : string -> Tokenizer
}.

(** Everything the morph is closed over: its options, its helpers, the regular
    expression engine ([None] when the pattern does not compile), the random
    source read by [randomize], the hashing method of the host model, and the
    failures the persistence layer may answer with. *)
Record Env := mkEnv {
  options : RecoverableOptions;
  utils : Utils;
  RegExp : string -> string -> option (string -> bool);
  randomSource : nat -> nat;
  hashPassword : Entity -> JsError + Entity;
  findFault : option JsError;
  saveFault : Entity -> option JsError
}.

(** ** The world and the promise monad *)

Record World := mkWorld {
  store : list Entity;
  clock : Date;
  drawn : nat;
  trace : list Event
}.

Inductive Settled (A : Type) :=
| Resolved (value : A)
| Rejected (reason : JsError).

Arguments Resolved {A} value.
Arguments Rejected {A} reason.

Definition Promise (A : Type) := World -> Settled A * World.

(** The outcome of calling a method: it throws before returning, or returns a
    promise that settles in some world. *)
Inductive Call (A : Type) :=
| Threw (error : JsError)
| Returned (result : Settled A) (w : World).

Arguments Threw {A} error.
Arguments Returned {A} result w.

Definition resolve {A} (value : A) : Promise A :=
  fun w => (Resolved value, w).

Definition reject {A} (reason : JsError) : Promise A :=
  fun w => (Rejected reason, w).

(** [p.then(f)]: a rejection skips [f]. *)
Definition andThen {A B} (p : Promise A) (f : A -> Promise B) : Promise B :=
  fun w =>
    match p w with
    | (Resolved a, w') => f a w'
    | (Rejected e, w') => (Rejected e, w')
    end.

(** [p.catch(h)]. *)
Definition catch {A} (p : Promise A) (h : JsError -> Promise A) : Promise A :=
  fun w =>
    match p w with
    | (Resolved a, w') => (Resolved a, w')
    | (Rejected e, w') => h e w'
    end.

(** An error-first callback [function (error) { ... }] given to an
    asynchronous call: it runs on either outcome. *)
Definition nodeback {A} (p : Promise A) : Promise (option JsError) :=
  fun w =>
    match p w with
    | (Resolved _, w') => (Resolved None, w')
    | (Rejected e, w') => (Resolved (Some e), w')
    end.

Declare Scope promise_scope.
Delimit Scope promise_scope with promise.

Notation "x <- p ;; k" := (andThen p (fun x => k))
  (at level 100, p at next level, right associativity) : promise_scope.
Notation "p ;; k" := (andThen p (fun _ => k))
  (at level 100, right associativity) : promise_scope.

#[local] Open Scope promise_scope.

Definition emit (ev : Event) : Promise unit :=
  fun w => (Resolved tt,
            mkWorld (store w) (clock w) (drawn w) (trace w ++ [ev])).

(** [if (done) { done(error, recoverable); }] *)
Definition callDone (done : bool) (error : option JsError)
    (recoverable : option Entity) : Promise unit :=
  if done then emit (Done error recoverable) else resolve tt.

(** [new Date()]: a reading of the clock, which stands still while one call
    of the morph runs. *)
Definition newDate : Promise Date :=
  fun w => (Resolved (clock w), w).

(** [date.getTime().toString()] *)
Definition getTimeString (d : Date) : string :=
  NilZero.string_of_int (Z.to_int d).

(** ** Helpers from outside the file *)

Definition msPerDay : Z := 86400000.

(** Modelled from the spec: [Utils.addDays(n)] of the missing [lib/utils],
    "expiry = now + tokenLifeSpanDays", the clock reading made explicit. *)
Definition addDays (now : Date) (days : Z) : Date := now + days * msPerDay.

Definition digit (n : nat) : ascii := ascii_of_nat (48 + Nat.modulo n 10).

Fixpoint digitsFrom (src : nat -> nat) (pos length : nat) : string :=
  match length with
  | O => EmptyString
  | S n => String (digit (src pos)) (digitsFrom src (S pos) n)
  end.

(** Modelled from the spec: [randomize('0', length)] of the randomatic
    package, "a random 6-character numeric string": one decimal digit per
    position, each drawn from the random source. *)
Definition randomize (src : nat -> nat) (length : nat) : Promise string :=
  fun w => (Resolved (digitsFrom src (drawn w) length),
            mkWorld (store w) (clock w) (drawn w + length) (trace w)).

(** Modelled from the spec: [doc.save()] of the persistence layer, "persists
    current in-memory field values": the stored document with the same
    identifier is replaced, a new one is appended. *)
Fixpoint upsert (doc : Entity) (docs : list Entity) : list Entity :=
  match docs with
  | [] => [doc]
  | d :: rest =>
      if Nat.eqb (_id d) (_id doc) then doc :: rest else d :: upsert doc rest
  end.

(** ** The morph *)

Section Morph.

Variable env : Env.

(** Modelled from the spec: [Model.findOne(criteria).exec()], "findOne(criteria)
    -> entity|none": the first stored document the criteria hold of. *)
Definition findOne (criteria : Entity -> bool) : Promise (option Entity) :=
  fun w =>
    match findFault env with
    | Some e => (Rejected e, w)
    | None => (Resolved (find criteria (store w)), w)
    end.

Definition save (doc : Entity) : Promise Entity :=
  fun w =>
    let w1 := mkWorld (store w) (clock w) (drawn w) (trace w ++ [Save doc]) in
    match saveFault env doc with
    | Some e => (Rejected e, w1)
    | None =>
        (Resolved doc,
         mkWorld (upsert doc (store w1)) (clock w1) (drawn w1) (trace w1))
    end.

(** Modelled from the spec: [recoverable.send(subject, context, onComplete)],
    "fire-and-forget/synchronous-callback with no declared failure path": the
    dispatch is recorded and the completion callback runs. *)
Definition send (subject : string) (payload : Entity) : Promise unit :=
  emit (Send subject payload).

Definition encryptPassword (doc : Entity) : Promise Entity :=
  emit (EncryptPassword doc) ;;
  match hashPassword env doc with
  | inl e => reject e
  | inr doc' => resolve doc'
  end.

(** [tokenType && tokenType === 'passcode'] *)
Definition isPasscode (tokenType : option string) : bool :=
  match tokenType with
  | Some t => String.eqb t "passcode"
  | None => false
  end.

(** [getRecoveryToken(payload, tokenType)], the payload being the pair of the
    expiry date and the email. *)
Definition getRecoveryToken (expiryAt : Date) (mail : string)
    (tokenType : option string) : Promise string :=
  if isPasscode tokenType then
    randomize (randomSource env) 6
  else
    let tokenizer := tokenizer (utils env) (getTimeString expiryAt) in
    resolve (encrypt tokenizer mail).

(** [schema.methods.generateRecoveryToken] *)
Definition generateRecoveryToken (done : bool) (recoverable : Entity)
    : Promise Entity :=
  now <- newDate ;;
  let expiryAt := addDays now (tokenLifeSpan (options env)) in
  token <- getRecoveryToken expiryAt (email recoverable)
             (tokenType (options env)) ;;
  let recoverable := set_recoveryToken (Some token) recoverable in
  let recoverable := set_recoveryTokenExpiryAt (Some expiryAt) recoverable in
  let recoverable := set_recoveredAt None recoverable in
  callDone done None (Some recoverable) ;;
  resolve recoverable.

(** [recoverable.recoveredAt && recoverable.recoveredAt !== null]: a [Date]
    object is truthy whatever instant it holds. *)
Definition isRecovered (recoverable : Entity) : bool :=
  match recoveredAt recoverable with
  | Some _ => true
  | None => false
  end.

(** [schema.methods.sendRecovery] *)
Definition sendRecovery (done : bool) (recoverable : Entity)
    : Promise Entity :=
  if isRecovered recoverable then
    callDone done None (Some recoverable) ;;
    resolve recoverable
  else
    send "Password recovery" recoverable ;;
    now <- newDate ;;
    let recoverable := set_recoverySentAt (Some now) recoverable in
    error <- nodeback (save recoverable) ;;
    match error with
    | Some error =>
        callDone done (Some error) None ;;
        reject error
    | None =>
        callDone done None (Some recoverable) ;;
        resolve recoverable
    end.

(** [schema.statics.requestRecover], the chain before its [.catch]. *)
Definition requestRecoverChain (criteria : Entity -> bool) (done : bool)
    : Promise (option Entity) :=
  recoverable <- findOne criteria ;;
  recoverable <-
    match recoverable with
    | None => reject (Error "Invalid recovery details")
    | Some recoverable => resolve recoverable
    end ;;
  recoverable <- generateRecoveryToken false recoverable ;;
  recoverable <- sendRecovery false recoverable ;;
  callDone done None (Some recoverable) ;;
  resolve (Some recoverable).

(** The [.catch] handler of [requestRecover]: with a callback the error is
    handed over and the handler returns [undefined] ([None]); without one the
    error is thrown again.  An error object is truthy, so [if (error)] holds. *)
Definition requestRecoverCatch (done : bool) (error : JsError)
    : Promise (option Entity) :=
  if done then
    emit (Done (Some error) None) ;;
    resolve None
  else
    reject error.

Definition requestRecover (criteria : Entity -> bool) (done : bool)
    : Promise (option Entity) :=
  catch (requestRecoverChain criteria done) (requestRecoverCatch done).

(** The query [{ recoveryToken: { $regex: token } }]: the compiled pattern is
    tried on the stored field; a [null] field matches no pattern. *)
Definition tokenCriteria (token : string -> bool) (doc : Entity) : bool :=
  match recoveryToken doc with
  | Some stored => token stored
  | None => false
  end.

(** [!tokenType || tokenType !== 'passcode'] *)
Definition verifiesToken (tokenType : option string) : bool :=
  match tokenType with
  | None => true
  | Some t => (String.eqb t "") || negb (String.eqb t "passcode")
  end.

(** First stage of [recover]: a missing document is reported to the callback
    and handed on. *)
Definition recoverFound (done : bool) (recoverable : option Entity)
    : Promise (option Entity) :=
  match recoverable with
  | None => callDone done (Some (Error "Invalid recovery token")) None
  | Some _ => resolve tt
  end ;;
  resolve recoverable.

(** Second stage: reading [recoverable.recoveryTokenExpiryAt] through [null]
    throws, which rejects the chain. *)
Definition recoverExpiry (done : bool) (recoverable : option Entity)
    : Promise Entity :=
  now <- newDate ;;
  match recoverable with
  | None =>
      reject (TypeError "Cannot read property 'recoveryTokenExpiryAt' of null")
  | Some recoverable =>
      let isTokenExpired :=
        negb (isAfter (utils env) now (recoveryTokenExpiryAt recoverable)) in
      (if isTokenExpired
       then callDone done (Some (Error "Recovery token expired")) None
       else resolve tt) ;;
      resolve recoverable
  end.

(** Third stage: [recoveryTokenExpiryAt.getTime()] throws on a [null] date. *)
Definition recoverVerify (recoveryToken : string) (done : bool)
    (recoverable : Entity) : Promise Entity :=
  match recoveryTokenExpiryAt recoverable with
  | None => reject (TypeError "Cannot read property 'getTime' of null")
  | Some expiryAt =>
      let value := getTimeString expiryAt in
      let tokenizer := tokenizer (utils env) value in
      (if verifiesToken (tokenType (options env)) then
         emit (TokenizerMatch value recoveryToken (email recoverable)) ;;
         if negb (matches tokenizer recoveryToken (email recoverable))
         then callDone done (Some (Error "Invalid recovery token")) None
         else resolve tt
       else resolve tt) ;;
      resolve recoverable
  end.

(** Fourth stage. *)
Definition recoverPassword (newPassword : string) (recoverable : Entity)
    : Promise Entity :=
  let recoverable := set_password newPassword recoverable in
  encryptPassword recoverable.

(** Fifth stage. *)
Definition recoverSave (done : bool) (recoverable : Entity)
    : Promise Entity :=
  now <- newDate ;;
  let recoverable := set_recoveredAt (Some now) recoverable in
  save recoverable ;;
  callDone done None (Some recoverable) ;;
  resolve recoverable.

(** The [.catch] handler of [recover]. *)
Definition recoverCatch (done : bool) (error : JsError) : Promise Entity :=
  callDone done (Some error) None ;;
  reject error.

(** The promise chain of [recover], the pattern already compiled. *)
Definition recoverChain (token : string -> bool)
    (recoveryToken newPassword : string) (done : bool) : Promise Entity :=
  catch
    (recoverable <- findOne (tokenCriteria token) ;;
     recoverable <- recoverFound done recoverable ;;
     recoverable <- recoverExpiry done recoverable ;;
     recoverable <- recoverVerify recoveryToken done recoverable ;;
     recoverable <- recoverPassword newPassword recoverable ;;
     recoverSave done recoverable)
    (recoverCatch done).

(** [schema.statics.recover]: [new RegExp(recoveryToken, 'i')] runs before
    any promise exists, so a pattern that does not compile makes the call
    itself throw. *)
Definition recover (recoveryToken newPassword : string) (done : bool)
    (w : World) : Call Entity :=
  match RegExp env recoveryToken "i" with
  | None => Threw (SyntaxError "Invalid regular expression")
  | Some token =>
      let (result, w') := recoverChain token recoveryToken newPassword done w in
      Returned result w'
  end.

End Morph.

(** ** A concrete environment

    Small stand-ins for the collaborators, on which the morph can be run. *)

(** A date helper in which the second date must be strictly later; a [null]
    date is after nothing. *)
Definition strictIsAfter (first : Date) (second : option Date) : bool :=
  match second with
  | Some s => first <? s
  | None => false
  end.

Fixpoint charCodes (s : string) : string :=
  match s with
  | EmptyString => EmptyString
  | String c rest =>
      NilZero.string_of_uint (Nat.to_uint (nat_of_ascii c)) ++ charCodes rest
  end.

(** A keyed tokenizer whose tokens are the seed followed by the character
    codes of the subject. *)
Definition codeTokenizer (seed : string) : Tokenizer :=
  mkTokenizer
    (fun subject => (seed ++ charCodes subject)%string)
    (fun token subject => String.eqb token (seed ++ charCodes subject)%string).

Definition sampleUtils : Utils :=
  mkUtils strictIsAfter
    (fun first second H => proj2 (Z.ltb_lt first second) H)
    (fun first second H =>
       proj2 (Z.ltb_ge first second) (Z.lt_le_incl second first H))
    codeTokenizer.

Definition isAlnum (c : ascii) : bool :=
  let n := nat_of_ascii c in
  ((48 <=? n) && (n <=? 57) || (65 <=? n) && (n <=? 90)
   || (97 <=? n) && (n <=? 122))%nat.

Definition lower (c : ascii) : ascii :=
  let n := nat_of_ascii c in
  if ((65 <=? n) && (n <=? 90))%nat then ascii_of_nat (n + 32) else c.

Fixpoint lowerCase (s : string) : string :=
  match s with
  | EmptyString => EmptyString
  | String c rest => String (lower c) (lowerCase rest)
  end.

Fixpoint allChars (p : ascii -> bool) (s : string) : bool :=
  match s with
  | EmptyString => true
  | String c rest => p c && allChars p rest
  end.

Fixpoint occursIn (needle hay : string) : bool :=
  String.prefix needle hay ||
  match hay with
  | EmptyString => false
  | String _ rest => occursIn needle rest
  end.

(** A regular expression engine for patterns of letters and digits only, on
    which a search is a substring search, blind to case under the flag [i].
    Any other pattern is refused. *)
Definition literalRegExp (pattern flags : string) : option (string -> bool) :=
  if allChars isAlnum pattern then
    if String.eqb flags "i"
    then Some (fun subject => occursIn (lowerCase pattern) (lowerCase subject))
    else Some (fun subject => occursIn pattern subject)
  else None.

(** A hashing method that marks the password as hashed. *)
Definition markHashed (doc : Entity) : JsError + Entity :=
  inr (set_password ("hashed:" ++ password doc)%string doc).

Definition sampleEnv (lifeSpan : Z) (type : option string)
    (saveError : option JsError) : Env :=
  mkEnv (mkOptions lifeSpan type) sampleUtils literalRegExp
    (fun n => (7 * n + 3)%nat) markHashed None (fun _ => saveError).

(** A user who completed a recovery at instant 500 and whose last token ran
    out at instant 1000. *)
Definition alice : Entity :=
  mkEntity 1 "a@x.com" "hashed:old" (Some "100097641204699111109")
    (Some 1000) (Some 400) (Some 500).

(** A user with an outstanding token that runs out at instant 1000. *)
Definition bob : Entity :=
  mkEntity 2 "b@x.com" "hashed:old" (Some "100098641204699111109")
    (Some 1000) (Some 400) None.

(** A user with an outstanding passcode that runs out at instant 1000. *)
Definition carol : Entity :=
  mkEntity 3 "c@x.com" "hashed:old" (Some "481592") (Some 1000) (Some 400)
    None.

Definition worldAt (now : Date) (docs : list Entity) : World :=
  mkWorld docs now 0 [].

(** ** Vocabulary of the statements *)

(** The document [generateRecoveryToken] leaves behind, given the token it
    drew and the clock reading it made. *)
Definition withToken (env : Env) (token : string) (now : Date)
    (recoverable : Entity) : Entity :=
  mkEntity (_id recoverable) (email recoverable) (password recoverable)
    (Some token) (Some (addDays now (tokenLifeSpan (options env))))
    (recoverySentAt recoverable) None.

(** The callback invocations [done(error)] and [done(null, recoverable)],
    none when no callback was given. *)
Definition failed (done : bool) (error : JsError) : list Event :=
  if done then [Done (Some error) None] else [].

Definition succeeded (done : bool) (recoverable : Entity) : list Event :=
  if done then [Done None (Some recoverable)] else [].

Definition logged (events : list Event) (w : World) : World :=
  mkWorld (store w) (clock w) (drawn w) (trace w ++ events).

(** What the second stage of [recover] tells the callback. *)
Definition expiryReport (env : Env) (done : bool) (now : Date)
    (recoverable : Entity) : list Event :=
  if isAfter (utils env) now (recoveryTokenExpiryAt recoverable)
  then []
  else failed done (Error "Recovery token expired").

(** What the third stage of [recover] asks of the tokenizer and tells the
    callback, on a document whose expiry is [expiryAt]. *)
Definition verifyReport (env : Env) (done : bool) (recoveryToken : string)
    (expiryAt : Date) (recoverable : Entity) : list Event :=
  if verifiesToken (tokenType (options env)) then
    TokenizerMatch (getTimeString expiryAt) recoveryToken (email recoverable)
    :: (if matches (tokenizer (utils env) (getTimeString expiryAt))
             recoveryToken (email recoverable)
        then []
        else failed done (Error "Invalid recovery token"))
  else [].

(** The error thrown by the second stage of [recover] on a [null] document. *)
Definition nullDocument : JsError :=
  TypeError "Cannot read property 'recoveryTokenExpiryAt' of null".

Definition isDigit (c : ascii) : bool :=
  let n := nat_of_ascii c in ((48 <=? n) && (n <=? 57))%nat.

(** The number of invocations of the callback in a run. *)
Fixpoint doneCalls (events : list Event) : nat :=
  match events with
  | [] => O
  | Done _ _ :: rest => S (doneCalls rest)
  | _ :: rest => doneCalls rest
  end.

(** The invocation of the callback that tells of a settled promise:
    [done(null, value)] or [done(error)]. *)
Definition toldOf (result : Settled Entity) : Event :=
  match result with
  | Resolved value => Done None (Some value)
  | Rejected error => Done (Some error) None
  end.

(** Whether an event is anything but a dispatch of a message. *)
Definition notSend (ev : Event) : bool :=
  match ev with
  | Send _ _ => false
  | _ => true
  end.

(** The error thrown by the third stage of [recover] on a [null] expiry. *)
Definition nullExpiry : JsError :=
  TypeError "Cannot read property 'getTime' of null".

(** An environment whose lookup, hashing method or save fail on demand. *)
Definition failingEnv (findError hashError saveError : option JsError)
    : Env :=
  mkEnv (mkOptions 1 None) sampleUtils literalRegExp
    (fun n => (7 * n + 3)%nat)
    (fun doc =>
       match hashError with
       | Some error => inl error
       | None => markHashed doc
       end)
    findError (fun _ => saveError).

(** A user whose token carries no expiry date. *)
Definition dave : Entity :=
  mkEntity 4 "d@x.com" "hashed:old" (Some "zzz999") None None None.

(** * Properties *)

(** ** The promise monad *)

Lemma andThen_resolved {A B} (p : Promise A) (f : A -> Promise B) w a w' :
  p w = (Resolved a, w') -> andThen p f w = f a w'.
Proof. intros H. unfold andThen. rewrite H. reflexivity. Qed.

Lemma andThen_rejected {A B} (p : Promise A) (f : A -> Promise B) w e w' :
  p w = (Rejected e, w') -> andThen p f w = (Rejected e, w').
Proof. intros H. unfold andThen. rewrite H. reflexivity. Qed.

Lemma callDone_trace done error recoverable w :
  callDone done error recoverable w =
  (Resolved tt,
   mkWorld (store w) (clock w) (drawn w)
     (trace w ++ if done then [Done error recoverable] else [])).
Proof.
  destruct done; simpl; [reflexivity|].
  unfold resolve. rewrite app_nil_r. destruct w; reflexivity.
Qed.

Lemma logged_nil w : logged [] w = w.
Proof. destruct w. unfold logged. simpl. rewrite app_nil_r. reflexivity. Qed.

Lemma logged_logged evs1 evs2 w :
  logged evs2 (logged evs1 w) = logged (evs1 ++ evs2) w.
Proof. unfold logged. simpl. rewrite app_assoc. reflexivity. Qed.

Lemma callDone_failed done error w :
  callDone done (Some error) None w = (Resolved tt, logged (failed done error) w).
Proof. rewrite callDone_trace. reflexivity. Qed.

Lemma callDone_succeeded done recoverable w :
  callDone done None (Some recoverable) w =
  (Resolved tt, logged (succeeded done recoverable) w).
Proof. rewrite callDone_trace. reflexivity. Qed.

Lemma emit_logged ev w : emit ev w = (Resolved tt, logged [ev] w).
Proof. reflexivity. Qed.

(** ** generateRecoveryToken *)

Lemma getRecoveryToken_settles env expiryAt mail type w :
  exists token,
    getRecoveryToken env expiryAt mail type w =
    (Resolved token,
     mkWorld (store w) (clock w)
       (if isPasscode type then (drawn w + 6)%nat else drawn w) (trace w)) /\
    token =
      if isPasscode type then digitsFrom (randomSource env) (drawn w) 6
      else encrypt (tokenizer (utils env) (getTimeString expiryAt)) mail.
Proof.
  unfold getRecoveryToken. destruct (isPasscode type).
  - eexists. split; reflexivity.
  - eexists. split; [|reflexivity]. destruct w; reflexivity.
Qed.

Lemma generateRecoveryToken_run env done recoverable w :
  exists token,
    generateRecoveryToken env done recoverable w =
    (Resolved (withToken env token (clock w) recoverable),
     mkWorld (store w) (clock w)
       (if isPasscode (tokenType (options env)) then (drawn w + 6)%nat
        else drawn w)
       (trace w ++ succeeded done (withToken env token (clock w) recoverable)))
    /\
    token =
      if isPasscode (tokenType (options env))
      then digitsFrom (randomSource env) (drawn w) 6
      else encrypt
             (tokenizer (utils env)
                (getTimeString (addDays (clock w) (tokenLifeSpan (options env)))))
             (email recoverable).
Proof.
  destruct (getRecoveryToken_settles env
              (addDays (clock w) (tokenLifeSpan (options env)))
              (email recoverable) (tokenType (options env)) w)
    as [token [Hrun Htoken]].
  exists token. split; [|exact Htoken].
  unfold generateRecoveryToken, newDate.
  unfold andThen at 1. unfold andThen at 1. rewrite Hrun.
  unfold andThen. rewrite callDone_succeeded. reflexivity.
Qed.

(** C6. For every document, also one whose [recoveredAt] is set,
    [generateRecoveryToken] resolves (it has no rejecting path) with the
    document in which [recoveryToken] is set, [recoveryTokenExpiryAt] is the
    clock reading plus [tokenLifeSpan] days and [recoveredAt] is [null]; the
    stored documents are left as they were and [save] is not called: the only
    observable call is the optional callback, with the mutated document. *)
Theorem generateRecoveryToken_sets_fields_without_saving
    env done recoverable w :
  exists token generated w',
    generateRecoveryToken env done recoverable w = (Resolved generated, w') /\
    recoveryToken generated = Some token /\
    recoveryTokenExpiryAt generated =
      Some (clock w + tokenLifeSpan (options env) * msPerDay) /\
    recoveredAt generated = None /\
    _id generated = _id recoverable /\
    email generated = email recoverable /\
    password generated = password recoverable /\
    recoverySentAt generated = recoverySentAt recoverable /\
    store w' = store w /\
    trace w' = trace w ++ succeeded done generated /\
    (forall doc, In (Save doc) (trace w') -> In (Save doc) (trace w)).
Proof.
  destruct (generateRecoveryToken_run env done recoverable w)
    as [token [Hrun _]].
  exists token. eexists. eexists. split; [exact Hrun|].
  simpl. repeat (split; [reflexivity|]).
  intros doc Hin. apply in_app_or in Hin. destruct Hin as [Hin|Hin]; [exact Hin|].
  destruct done; simpl in Hin; [|contradiction].
  destruct Hin as [Hin|[]]. discriminate Hin.
Qed.

(** ** sendRecovery *)

(** C7. On a document whose [recoveredAt] is set, [sendRecovery] resolves at
    once with that very document: the world is the one it started in but for
    the optional callback being told of the success, so [send] and [save] are
    not called and nothing is stored. *)
Theorem sendRecovery_backs_off_when_recovered env done recoverable w :
  recoveredAt recoverable <> None ->
  exists w',
    sendRecovery env done recoverable w = (Resolved recoverable, w') /\
    w' = logged (succeeded done recoverable) w /\
    store w' = store w /\
    (forall subject payload, In (Send subject payload) (trace w') ->
                             In (Send subject payload) (trace w)) /\
    (forall doc, In (Save doc) (trace w') -> In (Save doc) (trace w)).
Proof.
  intros Hset. unfold sendRecovery, isRecovered.
  destruct (recoveredAt recoverable) as [at_|]; [|congruence].
  unfold andThen. rewrite callDone_succeeded.
  eexists. split; [reflexivity|]. split; [reflexivity|]. split; [reflexivity|].
  split.
  - intros subject payload Hin. simpl in Hin. apply in_app_or in Hin.
    destruct Hin as [Hin|Hin]; [exact Hin|].
    destruct done; simpl in Hin; [|contradiction].
    destruct Hin as [Hin|[]]. discriminate Hin.
  - intros doc Hin. simpl in Hin. apply in_app_or in Hin.
    destruct Hin as [Hin|Hin]; [exact Hin|].
    destruct done; simpl in Hin; [|contradiction].
    destruct Hin as [Hin|[]]. discriminate Hin.
Qed.

Lemma sendRecovery_backs_off_when_recovered_witness :
  recoveredAt alice <> None /\
  exists w',
    sendRecovery (sampleEnv 1 None None) true alice (worldAt 2000 [alice]) =
      (Resolved alice, w') /\
    w' = logged (succeeded true alice) (worldAt 2000 [alice]) /\
    store w' = [alice] /\
    (forall subject payload, In (Send subject payload) (trace w') ->
                             In (Send subject payload) []) /\
    (forall doc, In (Save doc) (trace w') -> In (Save doc) []).
Proof.
  assert (H : recoveredAt alice <> None) by (simpl; discriminate).
  split; [exact H|].
  exact (sendRecovery_backs_off_when_recovered
           (sampleEnv 1 None None) true alice (worldAt 2000 [alice]) H).
Defined.

Lemma sendRecovery_dispatches env done recoverable w :
  recoveredAt recoverable = None ->
  sendRecovery env done recoverable w =
  let sent := set_recoverySentAt (Some (clock w)) recoverable in
  let attempt := [Send "Password recovery" recoverable; Save sent] in
  match saveFault env sent with
  | Some error => (Rejected error, logged (attempt ++ failed done error) w)
  | None =>
      (Resolved sent,
       mkWorld (upsert sent (store w)) (clock w) (drawn w)
         (trace w ++ attempt ++ succeeded done sent))
  end.
Proof.
  intros Hnull. unfold sendRecovery, isRecovered. rewrite Hnull.
  unfold send, andThen, emit, newDate, nodeback, save. simpl.
  destruct (saveFault env (set_recoverySentAt (Some (clock w)) recoverable))
    as [error|].
  - rewrite callDone_failed. unfold reject, logged. simpl.
    rewrite <- !app_assoc. reflexivity.
  - rewrite callDone_succeeded. unfold resolve, logged. simpl.
    rewrite <- !app_assoc. reflexivity.
Qed.

(** ** requestRecover *)

Lemma find_of_filter_single {A} (f : A -> bool) (l : list A) (a : A) :
  filter f l = [a] -> find f l = Some a.
Proof.
  induction l as [|x l IH]; simpl; [discriminate|].
  destruct (f x); [congruence|exact IH].
Qed.

Lemma find_of_filter_nil {A} (f : A -> bool) (l : list A) :
  filter f l = [] -> find f l = None.
Proof.
  induction l as [|x l IH]; simpl; [reflexivity|].
  destruct (f x); [discriminate|exact IH].
Qed.

Lemma requestRecoverChain_found env criteria done w recoverable :
  findFault env = None ->
  find criteria (store w) = Some recoverable ->
  exists token,
    let generated := withToken env token (clock w) recoverable in
    let sent := set_recoverySentAt (Some (clock w)) generated in
    let attempt := [Send "Password recovery" generated; Save sent] in
    let drawn' :=
      if isPasscode (tokenType (options env)) then (drawn w + 6)%nat
      else drawn w in
    requestRecoverChain env criteria done w =
    match saveFault env sent with
    | Some error =>
        (Rejected error,
         mkWorld (store w) (clock w) drawn' (trace w ++ attempt))
    | None =>
        (Resolved (Some sent),
         mkWorld (upsert sent (store w)) (clock w) drawn'
           (trace w ++ attempt ++ succeeded done sent))
    end.
Proof.
  intros Hfind Hfound.
  destruct (generateRecoveryToken_run env false recoverable w)
    as [token [Hrun _]].
  exists token. cbv zeta.
  unfold requestRecoverChain.
  unfold andThen at 1. unfold findOne. rewrite Hfind, Hfound.
  unfold andThen at 1. unfold resolve at 1.
  unfold andThen at 1. rewrite Hrun.
  unfold andThen at 1.
  rewrite sendRecovery_dispatches by reflexivity. cbv zeta. simpl.
  destruct (saveFault env
    (set_recoverySentAt (Some (clock w)) (withToken env token (clock w) recoverable)))
    as [error|].
  - unfold logged. simpl. rewrite !app_nil_r. reflexivity.
  - unfold andThen. rewrite callDone_succeeded. unfold resolve, logged. simpl.
    rewrite !app_nil_r, <- !app_assoc. reflexivity.
Qed.

Lemma requestRecoverChain_missing env criteria done w :
  findFault env = None ->
  find criteria (store w) = None ->
  requestRecoverChain env criteria done w =
  (Rejected (Error "Invalid recovery details"), w).
Proof.
  intros Hfind Hnone. unfold requestRecoverChain.
  unfold andThen at 1. unfold findOne. rewrite Hfind, Hnone.
  unfold andThen at 1. reflexivity.
Qed.

Lemma upsert_In doc docs : In doc (upsert doc docs).
Proof.
  induction docs as [|d rest IH]; simpl; [left; reflexivity|].
  destruct (Nat.eqb (_id d) (_id doc)); [left; reflexivity|right; exact IH].
Qed.

(** C4. When the lookup answers, the criteria hold of exactly one stored
    document, the token life span is a positive number of days and the save
    goes through, [requestRecover] resolves with that document carrying a
    token, an expiry of the clock reading plus [tokenLifeSpan] days, which is
    later than the clock, and a [null] [recoveredAt]; the document is stored,
    and the optional callback is told last. *)
Theorem requestRecover_issues_fresh_token env criteria done w recoverable :
  findFault env = None ->
  (forall doc, saveFault env doc = None) ->
  0 < tokenLifeSpan (options env) ->
  filter criteria (store w) = [recoverable] ->
  exists token expiryAt issued w',
    requestRecover env criteria done w = (Resolved (Some issued), w') /\
    _id issued = _id recoverable /\
    recoveryToken issued = Some token /\
    recoveryTokenExpiryAt issued = Some expiryAt /\
    expiryAt = clock w + tokenLifeSpan (options env) * msPerDay /\
    clock w' < expiryAt /\
    recoveredAt issued = None /\
    In issued (store w') /\
    exists before, trace w' = before ++ succeeded done issued.
Proof.
  intros Hfind Hsave Hspan Hone.
  apply find_of_filter_single in Hone.
  destruct (requestRecoverChain_found env criteria done w recoverable Hfind Hone)
    as [token Hrun].
  cbv zeta in Hrun. rewrite Hsave in Hrun.
  exists token. eexists. eexists. eexists.
  split.
  { unfold requestRecover, catch. rewrite Hrun. reflexivity. }
  simpl. repeat (split; [reflexivity|]).
  split; [unfold addDays, msPerDay; lia|].
  split; [reflexivity|].
  split; [apply upsert_In|].
  match goal with
  | |- exists before, trace w ++ ?s :: ?v :: _ = _ =>
      exists (trace w ++ [s; v])
  end.
  rewrite <- app_assoc. reflexivity.
Qed.

Lemma requestRecover_issues_fresh_token_witness :
  findFault (sampleEnv 1 None None) = None /\
  (forall doc, saveFault (sampleEnv 1 None None) doc = None) /\
  0 < tokenLifeSpan (options (sampleEnv 1 None None)) /\
  filter (fun doc => String.eqb (email doc) "b@x.com")
    (store (worldAt 2000 [alice; bob])) = [bob] /\
  exists token expiryAt issued w',
    requestRecover (sampleEnv 1 None None)
      (fun doc => String.eqb (email doc) "b@x.com") true
      (worldAt 2000 [alice; bob]) = (Resolved (Some issued), w') /\
    _id issued = _id bob /\
    recoveryToken issued = Some token /\
    recoveryTokenExpiryAt issued = Some expiryAt /\
    expiryAt = 2000 + 1 * msPerDay /\
    clock w' < expiryAt /\
    recoveredAt issued = None /\
    In issued (store w') /\
    exists before, trace w' = before ++ succeeded true issued.
Proof.
  assert (H1 : findFault (sampleEnv 1 None None) = None) by reflexivity.
  assert (H2 : forall doc, saveFault (sampleEnv 1 None None) doc = None)
    by (intros doc; reflexivity).
  assert (H3 : 0 < tokenLifeSpan (options (sampleEnv 1 None None)))
    by (simpl; lia).
  assert (H4 : filter (fun doc => String.eqb (email doc) "b@x.com")
                 (store (worldAt 2000 [alice; bob])) = [bob]) by reflexivity.
  repeat (split; [assumption|]).
  exact (requestRecover_issues_fresh_token (sampleEnv 1 None None)
           (fun doc => String.eqb (email doc) "b@x.com") true
           (worldAt 2000 [alice; bob]) bob H1 H2 H3 H4).
Defined.

(** C5. When the lookup answers and the criteria hold of no stored document,
    [requestRecover] fails with the error 'Invalid recovery details': it is
    the reason of the rejection when there is no callback, and the sole
    argument of the callback when there is one.  Nothing else happens. *)
Theorem requestRecover_not_found env criteria done w :
  findFault env = None ->
  filter criteria (store w) = [] ->
  requestRecover env criteria done w =
  if done
  then (Resolved None,
        logged [Done (Some (Error "Invalid recovery details")) None] w)
  else (Rejected (Error "Invalid recovery details"), w).
Proof.
  intros Hfind Hnone. apply find_of_filter_nil in Hnone.
  unfold requestRecover, catch.
  rewrite (requestRecoverChain_missing env criteria done w Hfind Hnone).
  unfold requestRecoverCatch. destruct done; reflexivity.
Qed.

Lemma requestRecover_not_found_witness :
  findFault (sampleEnv 1 None None) = None /\
  filter (fun doc => String.eqb (email doc) "z@x.com")
    (store (worldAt 2000 [alice; bob])) = [] /\
  requestRecover (sampleEnv 1 None None)
    (fun doc => String.eqb (email doc) "z@x.com") false
    (worldAt 2000 [alice; bob]) =
  (Rejected (Error "Invalid recovery details"), worldAt 2000 [alice; bob]).
Proof.
  assert (H1 : findFault (sampleEnv 1 None None) = None) by reflexivity.
  assert (H2 : filter (fun doc => String.eqb (email doc) "z@x.com")
                 (store (worldAt 2000 [alice; bob])) = []) by reflexivity.
  repeat (split; [assumption|]).
  exact (requestRecover_not_found (sampleEnv 1 None None)
           (fun doc => String.eqb (email doc) "z@x.com") false
           (worldAt 2000 [alice; bob]) H1 H2).
Defined.

(** C10. Whatever makes the chain of [requestRecover] fail, with a callback
    the callback is called with the error alone and the returned promise
    resolves with [undefined]; without a callback the promise rejects with
    the error.  So the promise of [requestRecover] rejects only when no
    callback was given. *)
Theorem requestRecover_failure_goes_to_callback_or_rejection
    env criteria done w error w' :
  requestRecoverChain env criteria done w = (Rejected error, w') ->
  requestRecover env criteria done w =
    (if done
     then (Resolved None, logged [Done (Some error) None] w')
     else (Rejected error, w')) /\
  (forall reason w'',
     requestRecover env criteria done w = (Rejected reason, w'') ->
     done = false).
Proof.
  intros Hfail.
  assert (Hrun : requestRecover env criteria done w =
                 if done
                 then (Resolved None, logged [Done (Some error) None] w')
                 else (Rejected error, w')).
  { unfold requestRecover, catch. rewrite Hfail.
    unfold requestRecoverCatch. destruct done; reflexivity. }
  split; [exact Hrun|].
  intros reason w'' Hrej. rewrite Hrun in Hrej.
  destruct done; [discriminate Hrej|reflexivity].
Qed.

Lemma requestRecover_failure_goes_to_callback_or_rejection_witness :
  exists w',
    requestRecoverChain (sampleEnv 1 None (Some (Error "disk full")))
      (fun doc => String.eqb (email doc) "b@x.com") true
      (worldAt 2000 [alice; bob]) = (Rejected (Error "disk full"), w') /\
    requestRecover (sampleEnv 1 None (Some (Error "disk full")))
      (fun doc => String.eqb (email doc) "b@x.com") true
      (worldAt 2000 [alice; bob]) =
      (Resolved None, logged [Done (Some (Error "disk full")) None] w') /\
    (forall reason w'',
       requestRecover (sampleEnv 1 None (Some (Error "disk full")))
         (fun doc => String.eqb (email doc) "b@x.com") true
         (worldAt 2000 [alice; bob]) = (Rejected reason, w'') ->
       true = false).
Proof.
  eexists.
  assert (H : requestRecoverChain (sampleEnv 1 None (Some (Error "disk full")))
                (fun doc => String.eqb (email doc) "b@x.com") true
                (worldAt 2000 [alice; bob]) =
              (Rejected (Error "disk full"),
               snd (requestRecoverChain
                      (sampleEnv 1 None (Some (Error "disk full")))
                      (fun doc => String.eqb (email doc) "b@x.com") true
                      (worldAt 2000 [alice; bob]))))
    by reflexivity.
  split; [exact H|].
  exact (requestRecover_failure_goes_to_callback_or_rejection
           (sampleEnv 1 None (Some (Error "disk full")))
           (fun doc => String.eqb (email doc) "b@x.com") true
           (worldAt 2000 [alice; bob]) (Error "disk full") _ H).
Defined.

(** ** recover *)

Lemma recoverFound_run done recoverable w :
  recoverFound done recoverable w =
  (Resolved recoverable,
   match recoverable with
   | None => logged (failed done (Error "Invalid recovery token")) w
   | Some _ => w
   end).
Proof.
  unfold recoverFound, andThen. destruct recoverable as [r|].
  - reflexivity.
  - rewrite callDone_failed. reflexivity.
Qed.

Lemma recoverExpiry_run env done recoverable w :
  recoverExpiry env done (Some recoverable) w =
  (Resolved recoverable, logged (expiryReport env done (clock w) recoverable) w).
Proof.
  unfold recoverExpiry, expiryReport, andThen, newDate.
  destruct (isAfter (utils env) (clock w) (recoveryTokenExpiryAt recoverable));
    simpl.
  - unfold resolve. rewrite logged_nil. reflexivity.
  - rewrite callDone_failed. reflexivity.
Qed.

Lemma recoverVerify_run env recoveryToken done recoverable expiryAt w :
  recoveryTokenExpiryAt recoverable = Some expiryAt ->
  recoverVerify env recoveryToken done recoverable w =
  (Resolved recoverable,
   logged (verifyReport env done recoveryToken expiryAt recoverable) w).
Proof.
  intros Hexp. unfold recoverVerify, verifyReport. rewrite Hexp.
  destruct (verifiesToken (tokenType (options env))).
  - unfold andThen. rewrite emit_logged.
    destruct (matches (tokenizer (utils env) (getTimeString expiryAt))
                recoveryToken (email recoverable)); simpl.
    + reflexivity.
    + rewrite callDone_failed, logged_logged. reflexivity.
  - unfold andThen, resolve. rewrite logged_nil. reflexivity.
Qed.

Lemma recoverPassword_run env newPassword recoverable hashed w :
  hashPassword env (set_password newPassword recoverable) = inr hashed ->
  recoverPassword env newPassword recoverable w =
  (Resolved hashed,
   logged [EncryptPassword (set_password newPassword recoverable)] w).
Proof.
  intros Hhash. unfold recoverPassword, encryptPassword, andThen.
  rewrite emit_logged, Hhash. reflexivity.
Qed.

Lemma recoverSave_run env done recoverable w :
  saveFault env (set_recoveredAt (Some (clock w)) recoverable) = None ->
  recoverSave env done recoverable w =
  let final := set_recoveredAt (Some (clock w)) recoverable in
  (Resolved final,
   mkWorld (upsert final (store w)) (clock w) (drawn w)
     (trace w ++ Save final :: succeeded done final)).
Proof.
  intros Hsave. unfold recoverSave, andThen, newDate, save. simpl.
  rewrite Hsave, callDone_succeeded. unfold resolve, logged. simpl.
  rewrite <- app_assoc. reflexivity.
Qed.

Lemma recoverChain_missing env token recoveryToken newPassword done w :
  findFault env = None ->
  find (tokenCriteria token) (store w) = None ->
  recoverChain env token recoveryToken newPassword done w =
  (Rejected nullDocument,
   logged (failed done (Error "Invalid recovery token")
           ++ failed done nullDocument) w).
Proof.
  intros Hfind Hnone. unfold recoverChain, catch.
  unfold andThen at 1. unfold findOne. rewrite Hfind, Hnone.
  unfold andThen at 1. rewrite recoverFound_run.
  unfold andThen at 1. unfold recoverExpiry, andThen, newDate, reject.
  unfold recoverCatch, andThen. rewrite callDone_failed, logged_logged.
  reflexivity.
Qed.

Lemma recoverChain_found env token recoveryToken newPassword done w
    recoverable expiryAt hashed :
  findFault env = None ->
  find (tokenCriteria token) (store w) = Some recoverable ->
  recoveryTokenExpiryAt recoverable = Some expiryAt ->
  hashPassword env (set_password newPassword recoverable) = inr hashed ->
  saveFault env (set_recoveredAt (Some (clock w)) hashed) = None ->
  recoverChain env token recoveryToken newPassword done w =
  let final := set_recoveredAt (Some (clock w)) hashed in
  (Resolved final,
   mkWorld (upsert final (store w)) (clock w) (drawn w)
     (trace w
      ++ expiryReport env done (clock w) recoverable
      ++ verifyReport env done recoveryToken expiryAt recoverable
      ++ EncryptPassword (set_password newPassword recoverable)
         :: Save final :: succeeded done final)).
Proof.
  intros Hfind Hsome Hexp Hhash Hsave. unfold recoverChain, catch.
  unfold andThen at 1. unfold findOne. rewrite Hfind, Hsome.
  unfold andThen at 1. rewrite recoverFound_run.
  unfold andThen at 1. rewrite recoverExpiry_run.
  unfold andThen at 1. rewrite (recoverVerify_run _ _ _ _ _ _ Hexp).
  unfold andThen at 1. rewrite (recoverPassword_run _ _ _ _ _ Hhash).
  rewrite recoverSave_run by exact Hsave.
  cbv zeta. unfold logged. simpl. rewrite <- !app_assoc. reflexivity.
Qed.

Lemma recover_compiled env rawToken newPassword done w token :
  RegExp env rawToken "i" = Some token ->
  recover env rawToken newPassword done w =
  Returned (fst (recoverChain env token rawToken newPassword done w))
           (snd (recoverChain env token rawToken newPassword done w)).
Proof.
  intros Hre. unfold recover. rewrite Hre.
  destruct (recoverChain env token rawToken newPassword done w). reflexivity.
Qed.

Lemma find_none_of_all_false {A} (f : A -> bool) (l : list A) :
  (forall a, In a l -> f a = false) -> find f l = None.
Proof.
  induction l as [|x l IH]; simpl; intros Hall; [reflexivity|].
  rewrite (Hall x (or_introl eq_refl)). apply IH.
  intros a Hin. apply Hall. right. exact Hin.
Qed.

Lemma verifiesToken_not_passcode type :
  verifiesToken type = negb (isPasscode type).
Proof.
  destruct type as [t|]; simpl; [|reflexivity].
  destruct (String.eqb_spec t "") as [->|_]; reflexivity.
Qed.

(** What stage 1 of [recover] finds is a stored document whose stored token
    the pattern compiled from the raw token matches, and the first such. *)
Lemma recover_lookup_by_pattern token docs found :
  find (tokenCriteria token) docs = Some found ->
  In found docs /\
  exists stored, recoveryToken found = Some stored /\ token stored = true.
Proof.
  intros Hfound. apply find_some in Hfound. destruct Hfound as [Hin Hcrit].
  split; [exact Hin|]. unfold tokenCriteria in Hcrit.
  destruct (recoveryToken found) as [stored|]; [|discriminate].
  exists stored. split; [reflexivity|exact Hcrit].
Qed.

(** C1. An expired token does not stop [recover].  Bob's token ran out at
    instant 1000; at instant 2000 [recover] is called with it and a new
    password.  The callback is told 'Recovery token expired', yet the chain
    goes on: the password is replaced and hashed, the document is saved with
    the new password, the callback is told of a success and the promise
    resolves. *)
Theorem recover_expired_token_replaces_password :
  recoveryToken bob = Some "100098641204699111109" /\
  recoveryTokenExpiryAt bob = Some 1000 /\
  recover (sampleEnv 1 None None) "100098641204699111109" "NewPass1" true
    (worldAt 2000 [alice; bob]) =
  Returned
    (Resolved
       (mkEntity 2 "b@x.com" "hashed:NewPass1" (Some "100098641204699111109")
          (Some 1000) (Some 400) (Some 2000)))
    (mkWorld
       [alice;
        mkEntity 2 "b@x.com" "hashed:NewPass1" (Some "100098641204699111109")
          (Some 1000) (Some 400) (Some 2000)]
       2000 0
       [Done (Some (Error "Recovery token expired")) None;
        TokenizerMatch "1000" "100098641204699111109" "b@x.com";
        EncryptPassword
          (mkEntity 2 "b@x.com" "NewPass1" (Some "100098641204699111109")
             (Some 1000) (Some 400) None);
        Save
          (mkEntity 2 "b@x.com" "hashed:NewPass1"
             (Some "100098641204699111109") (Some 1000) (Some 400)
             (Some 2000));
        Done None
          (Some
             (mkEntity 2 "b@x.com" "hashed:NewPass1"
                (Some "100098641204699111109") (Some 1000) (Some 400)
                (Some 2000)))]).
Proof. repeat split. Qed.

(** C2, as it stands, fails on a lookup miss.  No stored token matches
    'nothing': stage 1 tells the callback 'Invalid recovery token', stage 2
    throws on the [null] document, and the chain rejects without replacing a
    password, hashing or saving anything. *)
Lemma recover_lookup_miss_skips_later_stages :
  exists w',
    recover (sampleEnv 1 None None) "nothing" "NewPass1" true
      (worldAt 2000 [alice; bob]) = Returned (Rejected nullDocument) w' /\
    In (Done (Some (Error "Invalid recovery token")) None) (trace w') /\
    (forall doc, ~ In (EncryptPassword doc) (trace w')) /\
    (forall doc, ~ In (Save doc) (trace w')) /\
    store w' = [alice; bob].
Proof.
  eexists. split; [reflexivity|]. simpl.
  split; [left; reflexivity|].
  split; [|split; [|reflexivity]]; intros doc [H|[H|[]]]; discriminate H.
Qed.

(** C2, amended.  With the pattern compiled and the lookup answering:
    - on a lookup miss the callback is told 'Invalid recovery token', then
      stage 2 throws on the [null] document: the callback is told of that
      error too, the promise rejects with it, and no later stage runs;
    - on a document with an expiry date, whatever stages 2 and 3 detect is
      told to the callback ('Recovery token expired' when the expiry is
      before the clock, 'Invalid recovery token' when the tokenizer is asked
      and does not match) and the chain goes on all the same: the password is
      replaced and hashed, [recoveredAt] is set and the document is saved. *)
Theorem recover_reports_errors_without_halting
    env rawToken newPassword done w token :
  RegExp env rawToken "i" = Some token ->
  findFault env = None ->
  match find (tokenCriteria token) (store w) with
  | None =>
      recover env rawToken newPassword done w =
      Returned (Rejected nullDocument)
        (logged (failed done (Error "Invalid recovery token")
                 ++ failed done nullDocument) w)
  | Some recoverable =>
      forall expiryAt hashed,
        recoveryTokenExpiryAt recoverable = Some expiryAt ->
        hashPassword env (set_password newPassword recoverable) = inr hashed ->
        saveFault env (set_recoveredAt (Some (clock w)) hashed) = None ->
        recover env rawToken newPassword done w =
        Returned (Resolved (set_recoveredAt (Some (clock w)) hashed))
          (mkWorld
             (upsert (set_recoveredAt (Some (clock w)) hashed) (store w))
             (clock w) (drawn w)
             (trace w
              ++ expiryReport env done (clock w) recoverable
              ++ verifyReport env done rawToken expiryAt recoverable
              ++ EncryptPassword (set_password newPassword recoverable)
                 :: Save (set_recoveredAt (Some (clock w)) hashed)
                 :: succeeded done (set_recoveredAt (Some (clock w)) hashed)))
        /\
        (expiryAt < clock w ->
         expiryReport env done (clock w) recoverable =
         failed done (Error "Recovery token expired")) /\
        (verifiesToken (tokenType (options env)) = true ->
         matches (tokenizer (utils env) (getTimeString expiryAt)) rawToken
           (email recoverable) = false ->
         verifyReport env done rawToken expiryAt recoverable =
         TokenizerMatch (getTimeString expiryAt) rawToken (email recoverable)
         :: failed done (Error "Invalid recovery token"))
  end.
Proof.
  intros Hre Hfind. rewrite (recover_compiled _ _ _ _ _ _ Hre).
  destruct (find (tokenCriteria token) (store w)) as [recoverable|] eqn:Hlook.
  - intros expiryAt hashed Hexp Hhash Hsave.
    rewrite (recoverChain_found _ _ _ _ _ _ _ _ _ Hfind Hlook Hexp Hhash Hsave).
    split; [reflexivity|]. split.
    + intros Hpast. unfold expiryReport. rewrite Hexp.
      rewrite (isAfter_earlier (utils env) _ _ Hpast). reflexivity.
    + intros Hver Hmis. unfold verifyReport. rewrite Hver, Hmis. reflexivity.
  - rewrite (recoverChain_missing _ _ _ _ _ _ Hfind Hlook). reflexivity.
Qed.

Lemma recover_reports_errors_without_halting_witness :
  exists token,
    RegExp (sampleEnv 1 None None) "100098641204699111109" "i" = Some token /\
    findFault (sampleEnv 1 None None) = None /\
    recover (sampleEnv 1 None None) "100098641204699111109" "NewPass1" true
      (worldAt 2000 [alice; bob]) =
    Returned
      (Resolved
         (mkEntity 2 "b@x.com" "hashed:NewPass1"
            (Some "100098641204699111109") (Some 1000) (Some 400)
            (Some 2000)))
      (mkWorld
         [alice;
          mkEntity 2 "b@x.com" "hashed:NewPass1"
            (Some "100098641204699111109") (Some 1000) (Some 400)
            (Some 2000)]
         2000 0
         [Done (Some (Error "Recovery token expired")) None;
          TokenizerMatch "1000" "100098641204699111109" "b@x.com";
          EncryptPassword
            (mkEntity 2 "b@x.com" "NewPass1" (Some "100098641204699111109")
               (Some 1000) (Some 400) None);
          Save
            (mkEntity 2 "b@x.com" "hashed:NewPass1"
               (Some "100098641204699111109") (Some 1000) (Some 400)
               (Some 2000));
          Done None
            (Some
               (mkEntity 2 "b@x.com" "hashed:NewPass1"
                  (Some "100098641204699111109") (Some 1000) (Some 400)
                  (Some 2000)))]).
Proof.
  eexists.
  assert (H1 : RegExp (sampleEnv 1 None None) "100098641204699111109" "i" =
               Some (fun subject =>
                       occursIn (lowerCase "100098641204699111109")
                         (lowerCase subject))) by reflexivity.
  assert (H2 : findFault (sampleEnv 1 None None) = None) by reflexivity.
  split; [exact H1|]. split; [exact H2|].
  exact (proj1
           (recover_reports_errors_without_halting (sampleEnv 1 None None)
              "100098641204699111109" "NewPass1" true
              (worldAt 2000 [alice; bob]) _ H1 H2 1000
              (mkEntity 2 "b@x.com" "hashed:NewPass1"
                 (Some "100098641204699111109") (Some 1000) (Some 400) None)
              eq_refl eq_refl eq_refl)).
Defined.

(** C3. Let the pattern compile and the lookup find a document whose expiry
    is later than the clock, in a mode other than passcode, with a raw token
    the tokenizer keyed by the expiry matches against the email, and let the
    hashing and the save go through.  Then [recover] resolves with the
    document the hashing method returned for the new password, [recoveredAt]
    set to the clock reading; that document is what is saved and stored; the
    tokenizer is asked once, no error is told to the callback, and the
    callback is told of the success last. *)
Theorem recover_valid_token_sets_password_and_persists
    env rawToken newPassword done w token recoverable expiryAt hashed :
  RegExp env rawToken "i" = Some token ->
  findFault env = None ->
  find (tokenCriteria token) (store w) = Some recoverable ->
  recoveryTokenExpiryAt recoverable = Some expiryAt ->
  clock w < expiryAt ->
  isPasscode (tokenType (options env)) = false ->
  matches (tokenizer (utils env) (getTimeString expiryAt)) rawToken
    (email recoverable) = true ->
  hashPassword env (set_password newPassword recoverable) = inr hashed ->
  saveFault env (set_recoveredAt (Some (clock w)) hashed) = None ->
  exists final w',
    recover env rawToken newPassword done w = Returned (Resolved final) w' /\
    final = set_recoveredAt (Some (clock w)) hashed /\
    recoveredAt final = Some (clock w) /\
    password final = password hashed /\
    store w' = upsert final (store w) /\
    In final (store w') /\
    trace w' =
      trace w
      ++ [TokenizerMatch (getTimeString expiryAt) rawToken (email recoverable);
          EncryptPassword (set_password newPassword recoverable);
          Save final]
      ++ succeeded done final.
Proof.
  intros Hre Hfind Hlook Hexp Hlive Hmode Hmatch Hhash Hsave.
  eexists. eexists. split.
  { rewrite (recover_compiled _ _ _ _ _ _ Hre).
    rewrite (recoverChain_found _ _ _ _ _ _ _ _ _ Hfind Hlook Hexp Hhash Hsave).
    reflexivity. }
  simpl. repeat (split; [reflexivity|]).
  split; [apply upsert_In|].
  unfold expiryReport, verifyReport.
  rewrite Hexp, (isAfter_later (utils env) _ _ Hlive).
  rewrite verifiesToken_not_passcode, Hmode, Hmatch. reflexivity.
Qed.

Lemma recover_valid_token_sets_password_and_persists_witness :
  exists token final w',
    RegExp (sampleEnv 1 None None) "100098641204699111109" "i" = Some token /\
    find (tokenCriteria token) (store (worldAt 500 [alice; bob])) = Some bob /\
    clock (worldAt 500 [alice; bob]) < 1000 /\
    recover (sampleEnv 1 None None) "100098641204699111109" "NewPass1" true
      (worldAt 500 [alice; bob]) = Returned (Resolved final) w' /\
    final =
      mkEntity 2 "b@x.com" "hashed:NewPass1" (Some "100098641204699111109")
        (Some 1000) (Some 400) (Some 500) /\
    store w' = [alice; final] /\
    trace w' =
      [TokenizerMatch "1000" "100098641204699111109" "b@x.com";
       EncryptPassword
         (mkEntity 2 "b@x.com" "NewPass1" (Some "100098641204699111109")
            (Some 1000) (Some 400) None);
       Save final; Done None (Some final)].
Proof.
  assert (H1 : RegExp (sampleEnv 1 None None) "100098641204699111109" "i" =
               Some (fun subject =>
                       occursIn (lowerCase "100098641204699111109")
                         (lowerCase subject))) by reflexivity.
  assert (H5 : clock (worldAt 500 [alice; bob]) < 1000) by (simpl; lia).
  destruct (recover_valid_token_sets_password_and_persists
              (sampleEnv 1 None None) "100098641204699111109" "NewPass1" true
              (worldAt 500 [alice; bob]) _ bob 1000
              (mkEntity 2 "b@x.com" "hashed:NewPass1"
                 (Some "100098641204699111109") (Some 1000) (Some 400) None)
              H1 eq_refl eq_refl eq_refl H5 eq_refl eq_refl eq_refl eq_refl)
    as [final [w' [Hrun [Hfinal [_ [_ [Hstore [_ Htrace]]]]]]]].
  eexists. exists final. exists w'.
  split; [exact H1|]. split; [reflexivity|]. split; [exact H5|].
  split; [exact Hrun|]. split; [exact Hfinal|].
  split; [rewrite Hstore, Hfinal; reflexivity|].
  rewrite Htrace, Hfinal. reflexivity.
Defined.

(** ** Passcode mode *)

Lemma digit_isDigit n : isDigit (digit n) = true.
Proof.
  unfold isDigit, digit.
  assert (Hlt : (Nat.modulo n 10 < 10)%nat)
    by (apply Nat.mod_upper_bound; discriminate).
  rewrite nat_ascii_embedding by lia.
  apply andb_true_intro. split; apply Nat.leb_le; lia.
Qed.

Lemma digitsFrom_length src pos length :
  String.length (digitsFrom src pos length) = length.
Proof.
  revert pos. induction length as [|n IH]; intros pos;
    cbn [digitsFrom String.length]; [reflexivity|].
  rewrite IH. reflexivity.
Qed.

Lemma digitsFrom_digits src pos length :
  allChars isDigit (digitsFrom src pos length) = true.
Proof.
  revert pos. induction length as [|n IH]; intros pos;
    cbn [digitsFrom allChars]; [reflexivity|].
  rewrite digit_isDigit, IH. reflexivity.
Qed.

Lemma isPasscode_passcode : isPasscode (Some "passcode") = true.
Proof. reflexivity. Qed.

(** C8. In passcode mode, (1) on any document at any instant
    [generateRecoveryToken] sets as token the six decimal digits drawn from
    the random source, in which neither the email nor the expiry takes part;
    (2) when the pattern compiles, the lookup finds a document whose expiry
    is later than the clock and the hashing and the save go through,
    [recover] resolves with the password replaced, without the tokenizer
    being asked to match and without any error told to the callback. *)
Theorem passcode_mode_draws_digits_and_skips_verification
    env rawToken newPassword done w token recoverable expiryAt hashed :
  tokenType (options env) = Some "passcode" ->
  RegExp env rawToken "i" = Some token ->
  findFault env = None ->
  find (tokenCriteria token) (store w) = Some recoverable ->
  recoveryTokenExpiryAt recoverable = Some expiryAt ->
  clock w < expiryAt ->
  hashPassword env (set_password newPassword recoverable) = inr hashed ->
  saveFault env (set_recoveredAt (Some (clock w)) hashed) = None ->
  (forall anyDone anyDocument anyWorld,
     exists generated w1 passcode,
       generateRecoveryToken env anyDone anyDocument anyWorld =
         (Resolved generated, w1) /\
       recoveryToken generated = Some passcode /\
       passcode = digitsFrom (randomSource env) (drawn anyWorld) 6 /\
       String.length passcode = 6%nat /\
       allChars isDigit passcode = true) /\
  (exists final w',
     recover env rawToken newPassword done w = Returned (Resolved final) w' /\
     final = set_recoveredAt (Some (clock w)) hashed /\
     store w' = upsert final (store w) /\
     trace w' =
       trace w
       ++ [EncryptPassword (set_password newPassword recoverable); Save final]
       ++ succeeded done final /\
     (forall seed candidate subject,
        In (TokenizerMatch seed candidate subject) (trace w') ->
        In (TokenizerMatch seed candidate subject) (trace w))).
Proof.
  intros Hmode Hre Hfind Hlook Hexp Hlive Hhash Hsave. split.
  - intros anyDone anyDocument anyWorld.
    destruct (generateRecoveryToken_run env anyDone anyDocument anyWorld)
      as [passcode [Hrun Hpass]].
    rewrite Hmode, isPasscode_passcode in Hpass.
    eexists. eexists. exists passcode.
    split; [exact Hrun|]. split; [reflexivity|]. split; [exact Hpass|].
    rewrite Hpass. split; [apply digitsFrom_length|apply digitsFrom_digits].
  - assert (Hlate : expiryReport env done (clock w) recoverable = []).
    { unfold expiryReport.
      rewrite Hexp, (isAfter_later (utils env) _ _ Hlive). reflexivity. }
    assert (Hskip :
      verifyReport env done rawToken expiryAt recoverable = []).
    { unfold verifyReport.
      rewrite verifiesToken_not_passcode, Hmode. reflexivity. }
    eexists. eexists. split.
    { rewrite (recover_compiled _ _ _ _ _ _ Hre).
      rewrite (recoverChain_found _ _ _ _ _ _ _ _ _
                 Hfind Hlook Hexp Hhash Hsave).
      rewrite Hlate, Hskip. reflexivity. }
    cbn [fst snd store trace app].
    split; [reflexivity|]. split; [reflexivity|].
    split; [reflexivity|].
    intros seed candidate subject Hin. apply in_app_or in Hin.
    destruct Hin as [Hin|Hin]; [exact Hin|].
    destruct Hin as [Hin|[Hin|Hin]]; try discriminate Hin.
    destruct done; simpl in Hin; [|contradiction].
    destruct Hin as [Hin|[]]. discriminate Hin.
Qed.

Lemma passcode_mode_draws_digits_and_skips_verification_witness :
  exists token final w',
    tokenType (options (sampleEnv 1 (Some "passcode") None)) =
      Some "passcode" /\
    RegExp (sampleEnv 1 (Some "passcode") None) "481592" "i" = Some token /\
    find (tokenCriteria token) (store (worldAt 500 [alice; bob; carol])) =
      Some carol /\
    clock (worldAt 500 [alice; bob; carol]) < 1000 /\
    recover (sampleEnv 1 (Some "passcode") None) "481592" "NewPass1" true
      (worldAt 500 [alice; bob; carol]) = Returned (Resolved final) w' /\
    final =
      mkEntity 3 "c@x.com" "hashed:NewPass1" (Some "481592") (Some 1000)
        (Some 400) (Some 500) /\
    store w' = [alice; bob; final] /\
    trace w' =
      [EncryptPassword
         (mkEntity 3 "c@x.com" "NewPass1" (Some "481592") (Some 1000)
            (Some 400) None);
       Save final; Done None (Some final)].
Proof.
  assert (H1 : RegExp (sampleEnv 1 (Some "passcode") None) "481592" "i" =
               Some (fun subject =>
                       occursIn (lowerCase "481592") (lowerCase subject)))
    by reflexivity.
  assert (H5 : clock (worldAt 500 [alice; bob; carol]) < 1000)
    by (simpl; lia).
  destruct (passcode_mode_draws_digits_and_skips_verification
              (sampleEnv 1 (Some "passcode") None) "481592" "NewPass1" true
              (worldAt 500 [alice; bob; carol]) _ carol 1000
              (mkEntity 3 "c@x.com" "hashed:NewPass1" (Some "481592")
                 (Some 1000) (Some 400) None)
              eq_refl H1 eq_refl eq_refl eq_refl H5 eq_refl eq_refl)
    as [_ [final [w' [Hrun [Hfinal [Hstore [Htrace _]]]]]]].
  eexists. exists final. exists w'.
  split; [reflexivity|]. split; [exact H1|]. split; [reflexivity|].
  split; [exact H5|]. split; [exact Hrun|]. split; [exact Hfinal|].
  split; [rewrite Hstore, Hfinal; reflexivity|].
  rewrite Htrace, Hfinal. reflexivity.
Defined.

(** ** The lookup of recover *)

(** C9. The lookup of [recover] tries the pattern compiled from the raw token
    under the flag [i] on the stored tokens.  When it matches none of them,
    the error 'Invalid recovery token' is built but only handed to the
    callback, if there is one; the chain is not stopped, the next stage
    throws on the [null] document, and the promise rejects with that
    [TypeError] instead. *)
Theorem recover_lookup_miss_rejects_with_type_error
    env rawToken newPassword done w token :
  RegExp env rawToken "i" = Some token ->
  findFault env = None ->
  (forall doc stored,
     In doc (store w) -> recoveryToken doc = Some stored ->
     token stored = false) ->
  recover env rawToken newPassword done w =
  Returned (Rejected nullDocument)
    (logged (failed done (Error "Invalid recovery token")
             ++ failed done nullDocument) w).
Proof.
  intros Hre Hfind Hnone.
  assert (Hlook : find (tokenCriteria token) (store w) = None).
  { apply find_none_of_all_false. intros doc Hin. unfold tokenCriteria.
    destruct (recoveryToken doc) as [stored|] eqn:Hstored; [|reflexivity].
    exact (Hnone doc stored Hin Hstored). }
  rewrite (recover_compiled _ _ _ _ _ _ Hre).
  rewrite (recoverChain_missing _ _ _ _ _ _ Hfind Hlook). reflexivity.
Qed.

Lemma recover_lookup_miss_rejects_with_type_error_witness :
  exists token,
    RegExp (sampleEnv 1 None None) "nothing" "i" = Some token /\
    findFault (sampleEnv 1 None None) = None /\
    (forall doc stored,
       In doc (store (worldAt 2000 [alice; bob])) ->
       recoveryToken doc = Some stored -> token stored = false) /\
    recover (sampleEnv 1 None None) "nothing" "NewPass1" false
      (worldAt 2000 [alice; bob]) =
    Returned
      (Rejected
         (TypeError "Cannot read property 'recoveryTokenExpiryAt' of null"))
      (worldAt 2000 [alice; bob]).
Proof.
  assert (H1 : RegExp (sampleEnv 1 None None) "nothing" "i" =
               Some (fun subject =>
                       occursIn (lowerCase "nothing") (lowerCase subject)))
    by reflexivity.
  assert (H2 : findFault (sampleEnv 1 None None) = None) by reflexivity.
  assert (H3 : forall doc stored,
             In doc (store (worldAt 2000 [alice; bob])) ->
             recoveryToken doc = Some stored ->
             (fun subject =>
                occursIn (lowerCase "nothing") (lowerCase subject)) stored
             = false).
  { intros doc stored [Hd|[Hd|[]]] Hs; subst doc; simpl in Hs;
      injection Hs as <-; reflexivity. }
  eexists. split; [exact H1|]. split; [exact H2|]. split; [exact H3|].
  exact (recover_lookup_miss_rejects_with_type_error (sampleEnv 1 None None)
           "nothing" "NewPass1" false (worldAt 2000 [alice; bob]) _ H1 H2 H3).
Defined.

(** * Further properties *)

(** ** sendRecovery, the dispatching branch *)

Lemma doneCalls_app evs1 evs2 :
  doneCalls (evs1 ++ evs2) = (doneCalls evs1 + doneCalls evs2)%nat.
Proof.
  induction evs1 as [|ev evs1 IH]; [reflexivity|].
  destruct ev; simpl; rewrite IH; reflexivity.
Qed.

(** X1. On a document that is not recovered yet, when the save goes through,
    [sendRecovery] dispatches one message with the subject 'Password
    recovery' and the document as it was handed in, then stamps
    [recoverySentAt] with the clock, saves the stamped document, tells the
    callback and resolves with it. *)
Theorem sendRecovery_dispatches_stamps_and_saves env done recoverable w :
  recoveredAt recoverable = None ->
  saveFault env (set_recoverySentAt (Some (clock w)) recoverable) = None ->
  exists sent w',
    sendRecovery env done recoverable w = (Resolved sent, w') /\
    sent = set_recoverySentAt (Some (clock w)) recoverable /\
    recoverySentAt sent = Some (clock w) /\
    store w' = upsert sent (store w) /\
    In sent (store w') /\
    trace w' =
      trace w ++ [Send "Password recovery" recoverable; Save sent]
      ++ succeeded done sent.
Proof.
  intros Hnull Hsave. eexists. eexists.
  rewrite (sendRecovery_dispatches env done recoverable w Hnull).
  cbv zeta. rewrite Hsave.
  split; [reflexivity|]. split; [reflexivity|]. split; [reflexivity|].
  split; [reflexivity|]. split; [apply upsert_In|reflexivity].
Qed.

Lemma sendRecovery_dispatches_stamps_and_saves_witness :
  recoveredAt bob = None /\
  saveFault (sampleEnv 1 None None) (set_recoverySentAt (Some 2000) bob)
    = None /\
  exists sent w',
    sendRecovery (sampleEnv 1 None None) true bob (worldAt 2000 [alice; bob])
      = (Resolved sent, w') /\
    sent = set_recoverySentAt (Some 2000) bob /\
    recoverySentAt sent = Some 2000 /\
    store w' = upsert sent [alice; bob] /\
    In sent (store w') /\
    trace w' =
      [] ++ [Send "Password recovery" bob; Save sent] ++ succeeded true sent.
Proof.
  assert (H1 : recoveredAt bob = None) by reflexivity.
  assert (H2 : saveFault (sampleEnv 1 None None)
                 (set_recoverySentAt (Some 2000) bob) = None) by reflexivity.
  split; [exact H1|]. split; [exact H2|].
  exact (sendRecovery_dispatches_stamps_and_saves (sampleEnv 1 None None) true
           bob (worldAt 2000 [alice; bob]) H1 H2).
Defined.

(** X2. On a document that is not recovered yet, when the save fails, the
    message has been dispatched all the same: [sendRecovery] rejects with the
    error of the save, the callback is called with that error alone, and the
    stored documents are what they were, so the stamp [recoverySentAt] is not
    stored. *)
Theorem sendRecovery_save_failure_after_dispatch
    env done recoverable w error :
  recoveredAt recoverable = None ->
  saveFault env (set_recoverySentAt (Some (clock w)) recoverable)
    = Some error ->
  exists w',
    sendRecovery env done recoverable w = (Rejected error, w') /\
    store w' = store w /\
    trace w' =
      trace w
      ++ [Send "Password recovery" recoverable;
          Save (set_recoverySentAt (Some (clock w)) recoverable)]
      ++ failed done error.
Proof.
  intros Hnull Hsave. eexists.
  rewrite (sendRecovery_dispatches env done recoverable w Hnull).
  cbv zeta. rewrite Hsave.
  split; [reflexivity|]. split; reflexivity.
Qed.

Lemma sendRecovery_save_failure_after_dispatch_witness :
  recoveredAt bob = None /\
  saveFault (sampleEnv 1 None (Some (Error "disk full")))
    (set_recoverySentAt (Some 2000) bob) = Some (Error "disk full") /\
  exists w',
    sendRecovery (sampleEnv 1 None (Some (Error "disk full"))) true bob
      (worldAt 2000 [alice; bob]) = (Rejected (Error "disk full"), w') /\
    store w' = [alice; bob] /\
    trace w' =
      [] ++ [Send "Password recovery" bob;
             Save (set_recoverySentAt (Some 2000) bob)]
      ++ failed true (Error "disk full").
Proof.
  assert (H1 : recoveredAt bob = None) by reflexivity.
  assert (H2 : saveFault (sampleEnv 1 None (Some (Error "disk full")))
                 (set_recoverySentAt (Some 2000) bob)
               = Some (Error "disk full")) by reflexivity.
  split; [exact H1|]. split; [exact H2|].
  exact (sendRecovery_save_failure_after_dispatch
           (sampleEnv 1 None (Some (Error "disk full"))) true bob
           (worldAt 2000 [alice; bob]) (Error "disk full") H1 H2).
Defined.

(** X3. Whatever the document and the world, [sendRecovery] given a callback
    calls it exactly once, as the last thing it does, and with what the
    promise settles with: [done(null, recoverable)] when the promise
    resolves, [done(error)] when it rejects. *)
Theorem sendRecovery_calls_back_once_and_agrees env recoverable w :
  exists before,
    trace (snd (sendRecovery env true recoverable w)) =
      trace w ++ before
      ++ [toldOf (fst (sendRecovery env true recoverable w))] /\
    doneCalls before = O.
Proof.
  destruct (recoveredAt recoverable) as [at_|] eqn:Hrec.
  - exists []. unfold sendRecovery, isRecovered. rewrite Hrec.
    unfold andThen. rewrite callDone_succeeded. split; reflexivity.
  - exists [Send "Password recovery" recoverable;
            Save (set_recoverySentAt (Some (clock w)) recoverable)].
    rewrite (sendRecovery_dispatches env true recoverable w Hrec). cbv zeta.
    destruct (saveFault env (set_recoverySentAt (Some (clock w)) recoverable));
      split; reflexivity.
Qed.

(** X4. [generateRecoveryToken] arms [sendRecovery] again: on any document,
    also one already recovered, on which [sendRecovery] alone would back off,
    [sendRecovery] of the document that [generateRecoveryToken] resolved with
    dispatches a message carrying the new token. *)
Theorem generateRecoveryToken_then_sendRecovery_dispatches
    env recoverable w :
  exists generated w1 token,
    generateRecoveryToken env false recoverable w = (Resolved generated, w1) /\
    recoveryToken generated = Some token /\
    exists before after,
      trace (snd (sendRecovery env false generated w1)) =
        before ++ Send "Password recovery" generated :: after.
Proof.
  destruct (generateRecoveryToken_run env false recoverable w)
    as [token [Hrun _]].
  eexists. eexists. exists token. split; [exact Hrun|].
  split; [reflexivity|].
  rewrite sendRecovery_dispatches by reflexivity. cbv zeta.
  exists (trace w).
  destruct (saveFault env _); eexists; simpl; rewrite app_nil_r; reflexivity.
Qed.

(** ** The two tests of the token type *)

(** X5. The test of [recover], [!tokenType || tokenType !== 'passcode'], is
    the negation of the test of [getRecoveryToken],
    [tokenType && tokenType === 'passcode'], on every token type, undefined
    and the empty string included: the tokenizer is asked to verify exactly
    the tokens it made, and both tests single out the one string
    'passcode'. *)
Theorem token_type_tests_agree type :
  verifiesToken type = negb (isPasscode type) /\
  (isPasscode type = true <-> type = Some "passcode").
Proof.
  split; [apply verifiesToken_not_passcode|].
  destruct type as [t|]; simpl.
  - split.
    + intros H. apply String.eqb_eq in H. congruence.
    + intros H. injection H as ->. reflexivity.
  - split; discriminate.
Qed.

(** ** requestRecover, its failures and its frame *)

Lemma requestRecoverChain_lookup_fails env criteria done w error :
  findFault env = Some error ->
  requestRecoverChain env criteria done w = (Rejected error, w).
Proof.
  intros Hfind. unfold requestRecoverChain.
  unfold andThen at 1. unfold findOne. rewrite Hfind. reflexivity.
Qed.

Lemma requestRecover_of_chain env criteria done w :
  requestRecover env criteria done w =
  match requestRecoverChain env criteria done w with
  | (Resolved value, w') => (Resolved value, w')
  | (Rejected error, w') =>
      if done
      then (Resolved None, logged [Done (Some error) None] w')
      else (Rejected error, w')
  end.
Proof.
  unfold requestRecover, catch.
  destruct (requestRecoverChain env criteria done w) as [[value|error] w'];
    [reflexivity|].
  unfold requestRecoverCatch. destruct done; reflexivity.
Qed.

(** X6. When the lookup itself fails, [requestRecover] does nothing but
    report: the error of the lookup is the reason of the rejection, or with a
    callback its sole argument; no token is drawn, no message is dispatched,
    nothing is saved. *)
Theorem requestRecover_lookup_failure env criteria done w error :
  findFault env = Some error ->
  requestRecover env criteria done w =
  if done
  then (Resolved None, logged [Done (Some error) None] w)
  else (Rejected error, w).
Proof.
  intros Hfind. rewrite requestRecover_of_chain.
  rewrite (requestRecoverChain_lookup_fails env criteria done w error Hfind).
  reflexivity.
Qed.

Lemma requestRecover_lookup_failure_witness :
  findFault (failingEnv (Some (Error "no connection")) None None)
    = Some (Error "no connection") /\
  requestRecover (failingEnv (Some (Error "no connection")) None None)
    (fun doc => String.eqb (email doc) "b@x.com") false
    (worldAt 2000 [alice; bob]) =
  (Rejected (Error "no connection"), worldAt 2000 [alice; bob]).
Proof.
  assert (H1 : findFault (failingEnv (Some (Error "no connection")) None None)
               = Some (Error "no connection")) by reflexivity.
  split; [exact H1|].
  exact (requestRecover_lookup_failure
           (failingEnv (Some (Error "no connection")) None None)
           (fun doc => String.eqb (email doc) "b@x.com") false
           (worldAt 2000 [alice; bob]) (Error "no connection") H1).
Defined.

(** X7. When the save fails, [requestRecover] has already dispatched the
    message with the new token: the error of the save goes to the callback or
    is the reason of the rejection, and the stored documents are what they
    were, so the token that was sent is not the stored one. *)
Theorem requestRecover_save_failure_after_dispatch
    env criteria done w recoverable error :
  findFault env = None ->
  find criteria (store w) = Some recoverable ->
  (forall doc, saveFault env doc = Some error) ->
  exists token w',
    requestRecover env criteria done w =
      (if done then Resolved None else Rejected error, w') /\
    store w' = store w /\
    trace w' =
      trace w
      ++ [Send "Password recovery" (withToken env token (clock w) recoverable);
          Save (set_recoverySentAt (Some (clock w))
                  (withToken env token (clock w) recoverable))]
      ++ failed done error.
Proof.
  intros Hfind Hlook Hsave.
  destruct (requestRecoverChain_found env criteria done w recoverable
              Hfind Hlook) as [token Hrun].
  cbv zeta in Hrun. rewrite Hsave in Hrun.
  exists token. rewrite requestRecover_of_chain, Hrun.
  destruct done; eexists; (split; [reflexivity|]); (split; [reflexivity|]);
    simpl; rewrite ?app_nil_r, <- ?app_assoc; reflexivity.
Qed.

Lemma requestRecover_save_failure_after_dispatch_witness :
  findFault (sampleEnv 1 None (Some (Error "disk full"))) = None /\
  find (fun doc => String.eqb (email doc) "b@x.com")
    (store (worldAt 2000 [alice; bob])) = Some bob /\
  (forall doc,
     saveFault (sampleEnv 1 None (Some (Error "disk full"))) doc
     = Some (Error "disk full")) /\
  exists token w',
    requestRecover (sampleEnv 1 None (Some (Error "disk full")))
      (fun doc => String.eqb (email doc) "b@x.com") false
      (worldAt 2000 [alice; bob]) = (Rejected (Error "disk full"), w') /\
    store w' = [alice; bob] /\
    trace w' =
      [] ++ [Send "Password recovery"
               (withToken (sampleEnv 1 None (Some (Error "disk full"))) token
                  2000 bob);
             Save (set_recoverySentAt (Some 2000)
                     (withToken (sampleEnv 1 None (Some (Error "disk full")))
                        token 2000 bob))]
      ++ failed false (Error "disk full").
Proof.
  assert (H1 : findFault (sampleEnv 1 None (Some (Error "disk full"))) = None)
    by reflexivity.
  assert (H2 : find (fun doc => String.eqb (email doc) "b@x.com")
                 (store (worldAt 2000 [alice; bob])) = Some bob)
    by reflexivity.
  assert (H3 : forall doc,
             saveFault (sampleEnv 1 None (Some (Error "disk full"))) doc
             = Some (Error "disk full")) by (intros doc; reflexivity).
  split; [exact H1|]. split; [exact H2|]. split; [exact H3|].
  exact (requestRecover_save_failure_after_dispatch
           (sampleEnv 1 None (Some (Error "disk full")))
           (fun doc => String.eqb (email doc) "b@x.com") false
           (worldAt 2000 [alice; bob]) bob (Error "disk full") H1 H2 H3).
Defined.

(** X8. When the lookup answers with a document (the first stored one the
    criteria hold of, should there be several) and the save goes through,
    the document [requestRecover] resolves with and stores differs from the
    found one in four fields only: it has the new token, the new expiry,
    [recoverySentAt] stamped with the clock and [recoveredAt] [null]; the
    email and the password are untouched.  One message is dispatched, before
    the stamp is set, and one save is made. *)
Theorem requestRecover_touches_recovery_fields_only
    env criteria done w recoverable :
  findFault env = None ->
  find criteria (store w) = Some recoverable ->
  (forall doc, saveFault env doc = None) ->
  exists token issued w',
    requestRecover env criteria done w = (Resolved (Some issued), w') /\
    issued =
      mkEntity (_id recoverable) (email recoverable) (password recoverable)
        (Some token)
        (Some (clock w + tokenLifeSpan (options env) * msPerDay))
        (Some (clock w)) None /\
    store w' = upsert issued (store w) /\
    trace w' =
      trace w
      ++ [Send "Password recovery" (set_recoverySentAt
                                      (recoverySentAt recoverable) issued);
          Save issued]
      ++ succeeded done issued.
Proof.
  intros Hfind Hlook Hsave.
  destruct (requestRecoverChain_found env criteria done w recoverable
              Hfind Hlook) as [token Hrun].
  cbv zeta in Hrun. rewrite Hsave in Hrun.
  exists token. eexists. eexists. rewrite requestRecover_of_chain, Hrun.
  split; [reflexivity|]. split; [reflexivity|]. split; reflexivity.
Qed.

Lemma requestRecover_touches_recovery_fields_only_witness :
  findFault (sampleEnv 1 None None) = None /\
  find (fun doc => String.eqb (email doc) "a@x.com")
    (store (worldAt 2000 [alice; bob])) = Some alice /\
  (forall doc, saveFault (sampleEnv 1 None None) doc = None) /\
  exists token issued w',
    requestRecover (sampleEnv 1 None None)
      (fun doc => String.eqb (email doc) "a@x.com") true
      (worldAt 2000 [alice; bob]) = (Resolved (Some issued), w') /\
    issued =
      mkEntity 1 "a@x.com" "hashed:old" (Some token)
        (Some (2000 + 1 * msPerDay)) (Some 2000) None /\
    store w' = upsert issued [alice; bob] /\
    trace w' =
      [] ++ [Send "Password recovery"
               (set_recoverySentAt (Some 400) issued);
             Save issued]
      ++ succeeded true issued.
Proof.
  assert (H1 : findFault (sampleEnv 1 None None) = None) by reflexivity.
  assert (H2 : find (fun doc => String.eqb (email doc) "a@x.com")
                 (store (worldAt 2000 [alice; bob])) = Some alice)
    by reflexivity.
  assert (H3 : forall doc, saveFault (sampleEnv 1 None None) doc = None)
    by (intros doc; reflexivity).
  split; [exact H1|]. split; [exact H2|]. split; [exact H3|].
  exact (requestRecover_touches_recovery_fields_only (sampleEnv 1 None None)
           (fun doc => String.eqb (email doc) "a@x.com") true
           (worldAt 2000 [alice; bob]) alice H1 H2 H3).
Defined.

(** X9. Whatever the lookup, the criteria and the save do, [requestRecover]
    given a callback calls it exactly once, as the last thing it does, and
    its promise never rejects: it resolves with the document the callback
    was given, or with [undefined] when the callback was given an error. *)
Theorem requestRecover_calls_back_once env criteria w :
  exists before last,
    trace (snd (requestRecover env criteria true w)) =
      trace w ++ before ++ [last] /\
    doneCalls before = O /\
    match fst (requestRecover env criteria true w) with
    | Resolved (Some issued) => last = Done None (Some issued)
    | Resolved None => exists error, last = Done (Some error) None
    | Rejected _ => False
    end.
Proof.
  rewrite requestRecover_of_chain.
  destruct (findFault env) as [error|] eqn:Hfind.
  { rewrite (requestRecoverChain_lookup_fails _ _ _ _ _ Hfind).
    exists []. eexists. split; [reflexivity|]. split; [reflexivity|].
    exists error. reflexivity. }
  destruct (find criteria (store w)) as [recoverable|] eqn:Hlook.
  - destruct (requestRecoverChain_found env criteria true w recoverable
                Hfind Hlook) as [token Hrun].
    cbv zeta in Hrun. rewrite Hrun.
    destruct (saveFault env _) as [error|].
    + exists [Send "Password recovery"
                (withToken env token (clock w) recoverable);
              Save (set_recoverySentAt (Some (clock w))
                      (withToken env token (clock w) recoverable))].
      exists (Done (Some error) None).
      split; [simpl; rewrite <- app_assoc; reflexivity|].
      split; [reflexivity|]. exists error. reflexivity.
    + exists [Send "Password recovery"
                (withToken env token (clock w) recoverable);
              Save (set_recoverySentAt (Some (clock w))
                      (withToken env token (clock w) recoverable))].
      eexists. split; [simpl; reflexivity|].
      split; reflexivity.
  - rewrite (requestRecoverChain_missing _ _ _ _ Hfind Hlook).
    exists []. eexists. split; [reflexivity|]. split; [reflexivity|].
    eexists. reflexivity.
Qed.

(** X10. [requestRecover] stores a document only when it resolves with it:
    in every run either the promise resolves with a document and the stored
    documents are the former ones with that document saved, or the stored
    documents are what they were. *)
Theorem requestRecover_stores_only_on_success env criteria done w :
  match fst (requestRecover env criteria done w) with
  | Resolved (Some issued) =>
      store (snd (requestRecover env criteria done w)) =
      upsert issued (store w)
  | _ => store (snd (requestRecover env criteria done w)) = store w
  end.
Proof.
  rewrite requestRecover_of_chain.
  destruct (findFault env) as [error|] eqn:Hfind.
  { rewrite (requestRecoverChain_lookup_fails _ _ _ _ _ Hfind).
    destruct done; reflexivity. }
  destruct (find criteria (store w)) as [recoverable|] eqn:Hlook.
  - destruct (requestRecoverChain_found env criteria done w recoverable
                Hfind Hlook) as [token Hrun].
    cbv zeta in Hrun. rewrite Hrun.
    destruct (saveFault env _) as [error|]; [|reflexivity].
    destruct done; reflexivity.
  - rewrite (requestRecoverChain_missing _ _ _ _ Hfind Hlook).
    destruct done; reflexivity.
Qed.

(** ** recover, its failures *)

Lemma recoverChain_lookup_fails env token rawToken newPassword done w error :
  findFault env = Some error ->
  recoverChain env token rawToken newPassword done w =
  (Rejected error, logged (failed done error) w).
Proof.
  intros Hfind. unfold recoverChain, catch.
  unfold andThen at 1. unfold findOne. rewrite Hfind.
  unfold recoverCatch, andThen. rewrite callDone_failed. reflexivity.
Qed.

Lemma recoverChain_null_expiry env token rawToken newPassword done w
    recoverable :
  findFault env = None ->
  find (tokenCriteria token) (store w) = Some recoverable ->
  recoveryTokenExpiryAt recoverable = None ->
  recoverChain env token rawToken newPassword done w =
  (Rejected nullExpiry,
   logged (expiryReport env done (clock w) recoverable
           ++ failed done nullExpiry) w).
Proof.
  intros Hfind Hsome Hexp. unfold recoverChain, catch.
  unfold andThen at 1. unfold findOne. rewrite Hfind, Hsome.
  unfold andThen at 1. rewrite recoverFound_run.
  unfold andThen at 1. rewrite recoverExpiry_run.
  unfold andThen at 1. unfold recoverVerify. rewrite Hexp.
  unfold reject, recoverCatch, andThen.
  rewrite callDone_failed, logged_logged. reflexivity.
Qed.

Lemma recoverChain_hash_fails env token rawToken newPassword done w
    recoverable expiryAt error :
  findFault env = None ->
  find (tokenCriteria token) (store w) = Some recoverable ->
  recoveryTokenExpiryAt recoverable = Some expiryAt ->
  hashPassword env (set_password newPassword recoverable) = inl error ->
  recoverChain env token rawToken newPassword done w =
  (Rejected error,
   logged (expiryReport env done (clock w) recoverable
           ++ verifyReport env done rawToken expiryAt recoverable
           ++ EncryptPassword (set_password newPassword recoverable)
              :: failed done error) w).
Proof.
  intros Hfind Hsome Hexp Hhash. unfold recoverChain, catch.
  unfold andThen at 1. unfold findOne. rewrite Hfind, Hsome.
  unfold andThen at 1. rewrite recoverFound_run.
  unfold andThen at 1. rewrite recoverExpiry_run.
  unfold andThen at 1. rewrite (recoverVerify_run _ _ _ _ _ _ Hexp).
  unfold andThen at 1. unfold recoverPassword, encryptPassword.
  unfold andThen at 1. rewrite emit_logged, Hhash.
  unfold reject, recoverCatch, andThen.
  rewrite callDone_failed, !logged_logged, <- ?app_assoc. reflexivity.
Qed.

Lemma recoverChain_save_fails env token rawToken newPassword done w
    recoverable expiryAt hashed error :
  findFault env = None ->
  find (tokenCriteria token) (store w) = Some recoverable ->
  recoveryTokenExpiryAt recoverable = Some expiryAt ->
  hashPassword env (set_password newPassword recoverable) = inr hashed ->
  saveFault env (set_recoveredAt (Some (clock w)) hashed) = Some error ->
  recoverChain env token rawToken newPassword done w =
  (Rejected error,
   logged (expiryReport env done (clock w) recoverable
           ++ verifyReport env done rawToken expiryAt recoverable
           ++ EncryptPassword (set_password newPassword recoverable)
              :: Save (set_recoveredAt (Some (clock w)) hashed)
              :: failed done error) w).
Proof.
  intros Hfind Hsome Hexp Hhash Hsave. unfold recoverChain, catch.
  unfold andThen at 1. unfold findOne. rewrite Hfind, Hsome.
  unfold andThen at 1. rewrite recoverFound_run.
  unfold andThen at 1. rewrite recoverExpiry_run.
  unfold andThen at 1. rewrite (recoverVerify_run _ _ _ _ _ _ Hexp).
  unfold andThen at 1. rewrite (recoverPassword_run _ _ _ _ _ Hhash).
  unfold recoverSave, andThen, newDate, save. simpl. rewrite Hsave.
  unfold recoverCatch, andThen. rewrite callDone_failed.
  unfold logged. simpl. rewrite <- !app_assoc. reflexivity.
Qed.

(** X11. When the lookup itself fails, [recover] rejects with the error of
    the lookup, the callback being called once with that error alone; no
    stage of the chain runs and nothing is stored. *)
Theorem recover_lookup_failure env rawToken newPassword done w token error :
  RegExp env rawToken "i" = Some token ->
  findFault env = Some error ->
  recover env rawToken newPassword done w =
  Returned (Rejected error) (logged (failed done error) w).
Proof.
  intros Hre Hfind. rewrite (recover_compiled _ _ _ _ _ _ Hre).
  rewrite (recoverChain_lookup_fails _ _ _ _ _ _ _ Hfind). reflexivity.
Qed.

Lemma recover_lookup_failure_witness :
  exists token,
    RegExp (failingEnv (Some (Error "no connection")) None None)
      "100098641204699111109" "i" = Some token /\
    findFault (failingEnv (Some (Error "no connection")) None None)
      = Some (Error "no connection") /\
    recover (failingEnv (Some (Error "no connection")) None None)
      "100098641204699111109" "NewPass1" true (worldAt 500 [alice; bob]) =
    Returned (Rejected (Error "no connection"))
      (logged (failed true (Error "no connection"))
         (worldAt 500 [alice; bob])).
Proof.
  assert (H1 : RegExp (failingEnv (Some (Error "no connection")) None None)
                 "100098641204699111109" "i" =
               Some (fun subject =>
                       occursIn (lowerCase "100098641204699111109")
                         (lowerCase subject))) by reflexivity.
  assert (H2 : findFault (failingEnv (Some (Error "no connection")) None None)
               = Some (Error "no connection")) by reflexivity.
  eexists. split; [exact H1|]. split; [exact H2|].
  exact (recover_lookup_failure
           (failingEnv (Some (Error "no connection")) None None)
           "100098641204699111109" "NewPass1" true (worldAt 500 [alice; bob])
           _ (Error "no connection") H1 H2).
Defined.

(** X12. On a found document whose [recoveryTokenExpiryAt] is [null], the
    third stage throws when it reads the time of the expiry: [recover]
    rejects with that [TypeError], whatever the second stage made of the
    missing date; the password is not replaced, nothing is hashed or saved. *)
Theorem recover_null_expiry_rejects
    env rawToken newPassword done w token recoverable :
  RegExp env rawToken "i" = Some token ->
  findFault env = None ->
  find (tokenCriteria token) (store w) = Some recoverable ->
  recoveryTokenExpiryAt recoverable = None ->
  exists w',
    recover env rawToken newPassword done w =
      Returned (Rejected nullExpiry) w' /\
    store w' = store w /\
    trace w' =
      trace w ++ expiryReport env done (clock w) recoverable
      ++ failed done nullExpiry /\
    (forall doc, In (EncryptPassword doc) (trace w') ->
                 In (EncryptPassword doc) (trace w)) /\
    (forall doc, In (Save doc) (trace w') -> In (Save doc) (trace w)).
Proof.
  intros Hre Hfind Hlook Hexp. eexists.
  rewrite (recover_compiled _ _ _ _ _ _ Hre).
  rewrite (recoverChain_null_expiry _ _ _ _ _ _ _ Hfind Hlook Hexp).
  split; [reflexivity|]. split; [reflexivity|]. split; [reflexivity|].
  simpl. unfold expiryReport, failed.
  split; intros doc Hin;
    (apply in_app_or in Hin; destruct Hin as [Hin|Hin]; [exact Hin|]);
    destruct (isAfter (utils env) (clock w) (recoveryTokenExpiryAt recoverable)),
      done; simpl in Hin;
    repeat (destruct Hin as [Hin|Hin]; [discriminate Hin|]);
    contradiction.
Qed.

Lemma recover_null_expiry_rejects_witness :
  exists token w',
    RegExp (sampleEnv 1 None None) "zzz999" "i" = Some token /\
    findFault (sampleEnv 1 None None) = None /\
    find (tokenCriteria token) (store (worldAt 500 [alice; dave])) =
      Some dave /\
    recoveryTokenExpiryAt dave = None /\
    recover (sampleEnv 1 None None) "zzz999" "NewPass1" false
      (worldAt 500 [alice; dave]) = Returned (Rejected nullExpiry) w' /\
    store w' = [alice; dave].
Proof.
  assert (H1 : RegExp (sampleEnv 1 None None) "zzz999" "i" =
               Some (fun subject =>
                       occursIn (lowerCase "zzz999") (lowerCase subject)))
    by reflexivity.
  destruct (recover_null_expiry_rejects (sampleEnv 1 None None) "zzz999"
              "NewPass1" false (worldAt 500 [alice; dave]) _ dave
              H1 eq_refl eq_refl eq_refl)
    as [w' [Hrun [Hstore _]]].
  eexists. exists w'. split; [exact H1|]. split; [reflexivity|].
  split; [reflexivity|]. split; [reflexivity|].
  split; [exact Hrun|exact Hstore].
Defined.

(** X13. When the hashing method fails on a found document with an expiry
    date, [recover] rejects with the error of the hashing, the callback being
    called with it; [save] is not called and the stored documents, the
    password among them, are what they were. *)
Theorem recover_hashing_failure
    env rawToken newPassword done w token recoverable expiryAt error :
  RegExp env rawToken "i" = Some token ->
  findFault env = None ->
  find (tokenCriteria token) (store w) = Some recoverable ->
  recoveryTokenExpiryAt recoverable = Some expiryAt ->
  hashPassword env (set_password newPassword recoverable) = inl error ->
  exists w',
    recover env rawToken newPassword done w = Returned (Rejected error) w' /\
    store w' = store w /\
    trace w' =
      trace w
      ++ expiryReport env done (clock w) recoverable
      ++ verifyReport env done rawToken expiryAt recoverable
      ++ EncryptPassword (set_password newPassword recoverable)
         :: failed done error.
Proof.
  intros Hre Hfind Hlook Hexp Hhash. eexists.
  rewrite (recover_compiled _ _ _ _ _ _ Hre).
  rewrite (recoverChain_hash_fails _ _ _ _ _ _ _ _ _ Hfind Hlook Hexp Hhash).
  split; [reflexivity|]. split; reflexivity.
Qed.

Lemma recover_hashing_failure_witness :
  exists token w',
    RegExp (failingEnv None (Some (Error "no salt")) None)
      "100098641204699111109" "i" = Some token /\
    find (tokenCriteria token) (store (worldAt 500 [alice; bob])) =
      Some bob /\
    hashPassword (failingEnv None (Some (Error "no salt")) None)
      (set_password "NewPass1" bob) = inl (Error "no salt") /\
    recover (failingEnv None (Some (Error "no salt")) None)
      "100098641204699111109" "NewPass1" false (worldAt 500 [alice; bob]) =
      Returned (Rejected (Error "no salt")) w' /\
    store w' = [alice; bob].
Proof.
  assert (H1 : RegExp (failingEnv None (Some (Error "no salt")) None)
                 "100098641204699111109" "i" =
               Some (fun subject =>
                       occursIn (lowerCase "100098641204699111109")
                         (lowerCase subject))) by reflexivity.
  destruct (recover_hashing_failure
              (failingEnv None (Some (Error "no salt")) None)
              "100098641204699111109" "NewPass1" false
              (worldAt 500 [alice; bob]) _ bob 1000 (Error "no salt")
              H1 eq_refl eq_refl eq_refl eq_refl)
    as [w' [Hrun [Hstore _]]].
  eexists. exists w'. split; [exact H1|]. split; [reflexivity|].
  split; [reflexivity|]. split; [exact Hrun|exact Hstore].
Defined.

(** X14. When the save fails after the password of a found document was
    replaced and hashed, [recover] rejects with the error of the save, the
    callback being called with it, and the stored documents are what they
    were: the new password exists in memory only. *)
Theorem recover_save_failure
    env rawToken newPassword done w token recoverable expiryAt hashed error :
  RegExp env rawToken "i" = Some token ->
  findFault env = None ->
  find (tokenCriteria token) (store w) = Some recoverable ->
  recoveryTokenExpiryAt recoverable = Some expiryAt ->
  hashPassword env (set_password newPassword recoverable) = inr hashed ->
  saveFault env (set_recoveredAt (Some (clock w)) hashed) = Some error ->
  exists w',
    recover env rawToken newPassword done w = Returned (Rejected error) w' /\
    store w' = store w /\
    trace w' =
      trace w
      ++ expiryReport env done (clock w) recoverable
      ++ verifyReport env done rawToken expiryAt recoverable
      ++ EncryptPassword (set_password newPassword recoverable)
         :: Save (set_recoveredAt (Some (clock w)) hashed)
         :: failed done error.
Proof.
  intros Hre Hfind Hlook Hexp Hhash Hsave. eexists.
  rewrite (recover_compiled _ _ _ _ _ _ Hre).
  rewrite (recoverChain_save_fails _ _ _ _ _ _ _ _ _ _
             Hfind Hlook Hexp Hhash Hsave).
  split; [reflexivity|]. split; reflexivity.
Qed.

Lemma recover_save_failure_witness :
  exists token w',
    RegExp (failingEnv None None (Some (Error "disk full")))
      "100098641204699111109" "i" = Some token /\
    find (tokenCriteria token) (store (worldAt 500 [alice; bob])) =
      Some bob /\
    recover (failingEnv None None (Some (Error "disk full")))
      "100098641204699111109" "NewPass1" false (worldAt 500 [alice; bob]) =
      Returned (Rejected (Error "disk full")) w' /\
    store w' = [alice; bob].
Proof.
  assert (H1 : RegExp (failingEnv None None (Some (Error "disk full")))
                 "100098641204699111109" "i" =
               Some (fun subject =>
                       occursIn (lowerCase "100098641204699111109")
                         (lowerCase subject))) by reflexivity.
  destruct (recover_save_failure
              (failingEnv None None (Some (Error "disk full")))
              "100098641204699111109" "NewPass1" false
              (worldAt 500 [alice; bob]) _ bob 1000
              (mkEntity 2 "b@x.com" "hashed:NewPass1"
                 (Some "100098641204699111109") (Some 1000) (Some 400) None)
              (Error "disk full")
              H1 eq_refl eq_refl eq_refl eq_refl eq_refl)
    as [w' [Hrun [Hstore _]]].
  eexists. exists w'. split; [exact H1|]. split; [reflexivity|].
  split; [exact Hrun|exact Hstore].
Defined.

(** ** recover, what it leaves alone *)

Lemma notSend_failed done error : forallb notSend (failed done error) = true.
Proof. destruct done; reflexivity. Qed.

Lemma notSend_succeeded done recoverable :
  forallb notSend (succeeded done recoverable) = true.
Proof. destruct done; reflexivity. Qed.

Lemma notSend_expiryReport env done now recoverable :
  forallb notSend (expiryReport env done now recoverable) = true.
Proof.
  unfold expiryReport. destruct (isAfter _ _ _); [reflexivity|].
  apply notSend_failed.
Qed.

Lemma notSend_verifyReport env done rawToken expiryAt recoverable :
  forallb notSend (verifyReport env done rawToken expiryAt recoverable) = true.
Proof.
  unfold verifyReport. destruct (verifiesToken _); [|reflexivity].
  cbn [forallb notSend andb]. destruct (matches _ _ _); [reflexivity|].
  apply notSend_failed.
Qed.

Ltac notSend_solve :=
  rewrite ?forallb_app; cbn [forallb notSend andb];
  rewrite ?notSend_failed, ?notSend_succeeded, ?notSend_expiryReport,
    ?notSend_verifyReport;
  reflexivity.

Lemma recoverChain_frame env token rawToken newPassword done w :
  exists events,
    snd (recoverChain env token rawToken newPassword done w) =
    mkWorld
      (match fst (recoverChain env token rawToken newPassword done w) with
       | Resolved final => upsert final (store w)
       | Rejected _ => store w
       end)
      (clock w) (drawn w) (trace w ++ events) /\
    forallb notSend events = true.
Proof.
  destruct (findFault env) as [error|] eqn:Hfind.
  { rewrite (recoverChain_lookup_fails _ _ _ _ _ _ _ Hfind).
    eexists. split; [reflexivity|notSend_solve]. }
  destruct (find (tokenCriteria token) (store w)) as [recoverable|] eqn:Hlook.
  2:{ rewrite (recoverChain_missing _ _ _ _ _ _ Hfind Hlook).
      eexists. split; [reflexivity|notSend_solve]. }
  destruct (recoveryTokenExpiryAt recoverable) as [expiryAt|] eqn:Hexp.
  2:{ rewrite (recoverChain_null_expiry _ _ _ _ _ _ _ Hfind Hlook Hexp).
      eexists. split; [reflexivity|notSend_solve]. }
  destruct (hashPassword env (set_password newPassword recoverable))
    as [error|hashed] eqn:Hhash.
  { rewrite (recoverChain_hash_fails _ _ _ _ _ _ _ _ _
               Hfind Hlook Hexp Hhash).
    eexists. split; [reflexivity|notSend_solve]. }
  destruct (saveFault env (set_recoveredAt (Some (clock w)) hashed))
    as [error|] eqn:Hsave.
  - rewrite (recoverChain_save_fails _ _ _ _ _ _ _ _ _ _
               Hfind Hlook Hexp Hhash Hsave).
    eexists. split; [reflexivity|notSend_solve].
  - rewrite (recoverChain_found _ _ _ _ _ _ _ _ _
               Hfind Hlook Hexp Hhash Hsave).
    eexists. split; [reflexivity|notSend_solve].
Qed.

Lemma recover_returned env rawToken newPassword done w result w' :
  recover env rawToken newPassword done w = Returned result w' ->
  exists token,
    RegExp env rawToken "i" = Some token /\
    result = fst (recoverChain env token rawToken newPassword done w) /\
    w' = snd (recoverChain env token rawToken newPassword done w).
Proof.
  unfold recover. destruct (RegExp env rawToken "i") as [token|];
    [|discriminate].
  destruct (recoverChain env token rawToken newPassword done w)
    as [r w1] eqn:Hchain.
  intros H. injection H as <- <-. exists token. rewrite Hchain.
  repeat split.
Qed.

(** X15. Whenever [recover] returns a promise, the stored documents change
    only if the promise resolves, and then by the save of the document it
    resolves with: a rejected [recover] has stored nothing, whichever stage
    failed.  The clock and the random source are left alone in every run. *)
Theorem recover_stores_only_on_success
    env rawToken newPassword done w result w' :
  recover env rawToken newPassword done w = Returned result w' ->
  match result with
  | Resolved final => store w' = upsert final (store w)
  | Rejected _ => store w' = store w
  end /\
  clock w' = clock w /\
  drawn w' = drawn w.
Proof.
  intros Hrun. apply recover_returned in Hrun.
  destruct Hrun as [token [_ [-> ->]]].
  destruct (recoverChain_frame env token rawToken newPassword done w)
    as [events [Hw _]].
  rewrite Hw. cbn [store clock drawn].
  destruct (fst (recoverChain env token rawToken newPassword done w));
    repeat split.
Qed.

Lemma recover_stores_only_on_success_witness :
  exists w',
    recover (failingEnv None None (Some (Error "disk full")))
      "100098641204699111109" "NewPass1" true (worldAt 500 [alice; bob]) =
      Returned (Rejected (Error "disk full")) w' /\
    store w' = store (worldAt 500 [alice; bob]) /\
    clock w' = 500 /\
    drawn w' = O.
Proof.
  eexists.
  assert (H : recover (failingEnv None None (Some (Error "disk full")))
                "100098641204699111109" "NewPass1" true
                (worldAt 500 [alice; bob]) =
              Returned (Rejected (Error "disk full"))
                (snd (recoverChain
                        (failingEnv None None (Some (Error "disk full")))
                        (fun subject =>
                           occursIn (lowerCase "100098641204699111109")
                             (lowerCase subject))
                        "100098641204699111109" "NewPass1" true
                        (worldAt 500 [alice; bob])))) by reflexivity.
  split; [exact H|].
  exact (recover_stores_only_on_success
           (failingEnv None None (Some (Error "disk full")))
           "100098641204699111109" "NewPass1" true (worldAt 500 [alice; bob])
           (Rejected (Error "disk full")) _ H).
Defined.

(** X16. [recover] never dispatches a message: whatever it is called with and
    however it settles, every [send] in the trace it leaves was there
    before. *)
Theorem recover_never_sends
    env rawToken newPassword done w result w' subject payload :
  recover env rawToken newPassword done w = Returned result w' ->
  In (Send subject payload) (trace w') ->
  In (Send subject payload) (trace w).
Proof.
  intros Hrun Hin. apply recover_returned in Hrun.
  destruct Hrun as [token [_ [_ ->]]].
  destruct (recoverChain_frame env token rawToken newPassword done w)
    as [events [Hw Hnone]].
  rewrite Hw in Hin. cbn [trace] in Hin.
  apply in_app_or in Hin. destruct Hin as [Hin|Hin]; [exact Hin|].
  rewrite forallb_forall in Hnone. apply Hnone in Hin. discriminate Hin.
Qed.

Lemma recover_never_sends_witness :
  exists w',
    recover (sampleEnv 1 None None) "100098641204699111109" "NewPass1" true
      (logged [Send "Password recovery" bob] (worldAt 500 [alice; bob])) =
      Returned
        (Resolved
           (mkEntity 2 "b@x.com" "hashed:NewPass1"
              (Some "100098641204699111109") (Some 1000) (Some 400)
              (Some 500))) w' /\
    In (Send "Password recovery" bob) (trace w') /\
    In (Send "Password recovery" bob)
      (trace (logged [Send "Password recovery" bob]
                (worldAt 500 [alice; bob]))).
Proof.
  eexists.
  assert (H : recover (sampleEnv 1 None None) "100098641204699111109"
                "NewPass1" true
                (logged [Send "Password recovery" bob]
                   (worldAt 500 [alice; bob])) =
              Returned
                (Resolved
                   (mkEntity 2 "b@x.com" "hashed:NewPass1"
                      (Some "100098641204699111109") (Some 1000) (Some 400)
                      (Some 500)))
                (snd (recoverChain (sampleEnv 1 None None)
                        (fun subject =>
                           occursIn (lowerCase "100098641204699111109")
                             (lowerCase subject))
                        "100098641204699111109" "NewPass1" true
                        (logged [Send "Password recovery" bob]
                           (worldAt 500 [alice; bob]))))) by reflexivity.
  assert (Hin : In (Send "Password recovery" bob)
                  (trace (snd (recoverChain (sampleEnv 1 None None)
                        (fun subject =>
                           occursIn (lowerCase "100098641204699111109")
                             (lowerCase subject))
                        "100098641204699111109" "NewPass1" true
                        (logged [Send "Password recovery" bob]
                           (worldAt 500 [alice; bob]))))))
    by (left; reflexivity).
  split; [exact H|]. split; [exact Hin|].
  exact (recover_never_sends (sampleEnv 1 None None) "100098641204699111109"
           "NewPass1" true
           (logged [Send "Password recovery" bob] (worldAt 500 [alice; bob]))
           _ _ "Password recovery" bob H Hin).
Defined.

(** ** How the operations compose *)

Lemma find_upsert_same (f : Entity -> bool) docs found doc :
  find f docs = Some found ->
  _id doc = _id found ->
  f doc = true ->
  find f (upsert doc docs) = Some doc.
Proof.
  intros Hfound Hid Hdoc. induction docs as [|d rest IH];
    [discriminate Hfound|].
  cbn [find] in Hfound. cbn [upsert].
  destruct (f d) eqn:Hd.
  - injection Hfound as ->. rewrite Hid, Nat.eqb_refl.
    cbn [find]. rewrite Hdoc. reflexivity.
  - destruct (Nat.eqb (_id d) (_id doc)); cbn [find].
    + rewrite Hdoc. reflexivity.
    + rewrite Hd. exact (IH Hfound).
Qed.

Lemma upsert_elements doc docs x :
  In x (upsert doc docs) -> x = doc \/ In x docs.
Proof.
  induction docs as [|d rest IH]; cbn [upsert].
  - intros [H|[]]. left. symmetry. exact H.
  - destruct (Nat.eqb (_id d) (_id doc)).
    + intros [H|H]; [left; symmetry; exact H|right; right; exact H].
    + intros [H|H]; [right; left; exact H|].
      destruct (IH H) as [Hx|Hx]; [left; exact Hx|right; right; exact Hx].
Qed.

Lemma find_upsert_only (f : Entity -> bool) docs doc :
  f doc = true ->
  (forall x, In x docs -> f x = false) ->
  find f (upsert doc docs) = Some doc.
Proof.
  intros Hdoc Hnone.
  destruct (find f (upsert doc docs)) as [y|] eqn:Hfind.
  - apply find_some in Hfind. destruct Hfind as [Hin Hy].
    apply upsert_elements in Hin. destruct Hin as [->|Hin]; [reflexivity|].
    rewrite (Hnone y Hin) in Hy. discriminate Hy.
  - rewrite (find_none _ _ Hfind doc (upsert_In doc docs)) in Hdoc.
    discriminate Hdoc.
Qed.

(** X17. [recover] does not use the token up.  Let the hashing method touch
    the password only and the saves go through.  After [recover] has replaced
    the password of a found document, the stored document still carries the
    same token and expiry and is what the same lookup finds, and a second
    [recover] with the same raw token resolves as well and stores the second
    password. *)
Theorem recover_leaves_the_token_usable
    env rawToken firstPassword secondPassword done w token recoverable
    expiryAt :
  RegExp env rawToken "i" = Some token ->
  findFault env = None ->
  find (tokenCriteria token) (store w) = Some recoverable ->
  recoveryTokenExpiryAt recoverable = Some expiryAt ->
  (forall doc, exists hash,
     hashPassword env doc = inr (set_password hash doc)) ->
  (forall doc, saveFault env doc = None) ->
  exists first w1 second w2 hash,
    recover env rawToken firstPassword done w =
      Returned (Resolved first) w1 /\
    recoveryToken first = recoveryToken recoverable /\
    recoveryTokenExpiryAt first = Some expiryAt /\
    find (tokenCriteria token) (store w1) = Some first /\
    recover env rawToken secondPassword done w1 =
      Returned (Resolved second) w2 /\
    hashPassword env (set_password secondPassword first) =
      inr (set_password hash (set_password secondPassword first)) /\
    _id second = _id recoverable /\
    password second = hash /\
    recoveryToken second = recoveryToken recoverable /\
    In second (store w2).
Proof.
  intros Hre Hfind Hlook Hexp Hhash Hsave.
  destruct (Hhash (set_password firstPassword recoverable)) as [hash1 Hh1].
  pose (first := set_recoveredAt (Some (clock w))
                   (set_password hash1
                      (set_password firstPassword recoverable))).
  destruct (Hhash (set_password secondPassword first)) as [hash2 Hh2].
  pose proof (recoverChain_found env token rawToken firstPassword done w
                recoverable expiryAt _ Hfind Hlook Hexp Hh1 (Hsave _))
    as Hrun1.
  cbv zeta in Hrun1.
  assert (Hcrit : tokenCriteria token first = true).
  { apply find_some in Hlook. exact (proj2 Hlook). }
  assert (Hlook1 :
    find (tokenCriteria token)
      (store (snd (recoverChain env token rawToken firstPassword done w)))
    = Some first).
  { rewrite Hrun1. cbn [snd store].
    apply (find_upsert_same _ _ recoverable); [exact Hlook|reflexivity|].
    exact Hcrit. }
  pose proof (recoverChain_found env token rawToken secondPassword done
                (snd (recoverChain env token rawToken firstPassword done w))
                first expiryAt _ Hfind Hlook1 Hexp Hh2 (Hsave _))
    as Hrun2.
  cbv zeta in Hrun2.
  exists first. eexists. eexists. eexists. exists hash2.
  split.
  { rewrite (recover_compiled _ _ _ _ _ _ Hre), Hrun1. reflexivity. }
  split; [reflexivity|]. split; [exact Hexp|].
  split; [rewrite Hrun1 in Hlook1; exact Hlook1|].
  split.
  { rewrite (recover_compiled _ _ _ _ _ _ Hre).
    rewrite Hrun1 in Hrun2. rewrite Hrun2. reflexivity. }
  split; [exact Hh2|].
  split; [reflexivity|]. split; [reflexivity|]. split; [reflexivity|].
  cbn [store]. apply upsert_In.
Qed.

Lemma recover_leaves_the_token_usable_witness :
  exists token first w1 second w2,
    RegExp (sampleEnv 1 None None) "100098641204699111109" "i" = Some token /\
    find (tokenCriteria token) (store (worldAt 500 [alice; bob])) =
      Some bob /\
    recover (sampleEnv 1 None None) "100098641204699111109" "NewPass1" false
      (worldAt 500 [alice; bob]) = Returned (Resolved first) w1 /\
    recover (sampleEnv 1 None None) "100098641204699111109" "NewPass2" false
      w1 = Returned (Resolved second) w2 /\
    recoveryToken second = Some "100098641204699111109" /\
    In second (store w2).
Proof.
  assert (H1 : RegExp (sampleEnv 1 None None) "100098641204699111109" "i" =
               Some (fun subject =>
                       occursIn (lowerCase "100098641204699111109")
                         (lowerCase subject))) by reflexivity.
  assert (H5 : forall doc, exists hash,
             hashPassword (sampleEnv 1 None None) doc =
             inr (set_password hash doc)).
  { intros doc. eexists. reflexivity. }
  assert (H6 : forall doc, saveFault (sampleEnv 1 None None) doc = None)
    by (intros doc; reflexivity).
  destruct (recover_leaves_the_token_usable (sampleEnv 1 None None)
              "100098641204699111109" "NewPass1" "NewPass2" false
              (worldAt 500 [alice; bob]) _ bob 1000
              H1 eq_refl eq_refl eq_refl H5 H6)
    as [first [w1 [second [w2 [hash
         [Hrun1 [_ [_ [_ [Hrun2 [_ [_ [_ [Htoken Hin]]]]]]]]]]]]]].
  eexists. exists first. exists w1. exists second. exists w2.
  split; [exact H1|]. split; [reflexivity|]. split; [exact Hrun1|].
  split; [exact Hrun2|]. split; [exact Htoken|exact Hin].
Defined.

Lemma requestRecoverChain_issues env criteria done w recoverable :
  findFault env = None ->
  find criteria (store w) = Some recoverable ->
  (forall doc, saveFault env doc = None) ->
  isPasscode (tokenType (options env)) = false ->
  let expiryAt := addDays (clock w) (tokenLifeSpan (options env)) in
  let token :=
    encrypt (tokenizer (utils env) (getTimeString expiryAt))
      (email recoverable) in
  let generated := withToken env token (clock w) recoverable in
  let sent := set_recoverySentAt (Some (clock w)) generated in
  requestRecoverChain env criteria done w =
  (Resolved (Some sent),
   mkWorld (upsert sent (store w)) (clock w) (drawn w)
     (trace w ++ [Send "Password recovery" generated; Save sent]
      ++ succeeded done sent)).
Proof.
  intros Hfind Hfound Hsave Hmode. cbv zeta.
  destruct (generateRecoveryToken_run env false recoverable w)
    as [token [Hrun Htoken]].
  rewrite Hmode in Hrun, Htoken. subst token.
  unfold requestRecoverChain.
  unfold andThen at 1. unfold findOne. rewrite Hfind, Hfound.
  unfold andThen at 1. unfold resolve at 1.
  unfold andThen at 1. rewrite Hrun.
  unfold andThen at 1.
  rewrite sendRecovery_dispatches by reflexivity. cbv zeta.
  rewrite Hsave. unfold andThen. rewrite callDone_succeeded.
  unfold resolve, logged. simpl.
  rewrite !app_nil_r, <- !app_assoc. reflexivity.
Qed.

(** X18. A token issued by [requestRecover] is accepted by [recover].  In a
    mode other than passcode, with a positive life span, a tokenizer that
    matches the tokens it makes, a pattern compiled from the new token that
    matches that token and no token stored before, a hashing method that
    touches the password only and saves that go through: [requestRecover]
    resolves with a document carrying the token, and [recover] with that
    token then resolves with the same user, the password replaced and
    [recoveredAt] set, the tokenizer having matched and no error having been
    told to the callback. *)
Theorem requestRecover_then_recover
    env criteria newPassword done w recoverable token :
  findFault env = None ->
  find criteria (store w) = Some recoverable ->
  (forall doc, saveFault env doc = None) ->
  (forall doc, exists hash,
     hashPassword env doc = inr (set_password hash doc)) ->
  isPasscode (tokenType (options env)) = false ->
  0 < tokenLifeSpan (options env) ->
  (forall seed subject,
     matches (tokenizer (utils env) seed)
       (encrypt (tokenizer (utils env) seed) subject) subject = true) ->
  RegExp env
    (encrypt
       (tokenizer (utils env)
          (getTimeString (addDays (clock w) (tokenLifeSpan (options env)))))
       (email recoverable)) "i" = Some token ->
  token
    (encrypt
       (tokenizer (utils env)
          (getTimeString (addDays (clock w) (tokenLifeSpan (options env)))))
       (email recoverable)) = true ->
  (forall doc stored,
     In doc (store w) -> recoveryToken doc = Some stored ->
     token stored = false) ->
  exists issued w1 issuedToken final w2 hash,
    requestRecover env criteria done w = (Resolved (Some issued), w1) /\
    recoveryToken issued = Some issuedToken /\
    recover env issuedToken newPassword done w1 =
      Returned (Resolved final) w2 /\
    _id final = _id recoverable /\
    email final = email recoverable /\
    password final = hash /\
    hashPassword env (set_password newPassword issued) =
      inr (set_password hash (set_password newPassword issued)) /\
    recoveredAt final = Some (clock w) /\
    In final (store w2) /\
    trace w2 =
      trace w1
      ++ [TokenizerMatch
            (getTimeString (addDays (clock w) (tokenLifeSpan (options env))))
            issuedToken (email recoverable);
          EncryptPassword (set_password newPassword issued);
          Save final]
      ++ succeeded done final.
Proof.
  intros Hfind Hlook Hsave Hhash Hmode Hspan Hround Hre Hself Hfresh.
  pose proof (requestRecoverChain_issues env criteria done w recoverable
                Hfind Hlook Hsave Hmode) as Hreq.
  cbv zeta in Hreq.
  set (expiryAt := addDays (clock w) (tokenLifeSpan (options env))) in *.
  set (issuedToken :=
         encrypt (tokenizer (utils env) (getTimeString expiryAt))
           (email recoverable)) in *.
  set (issued := set_recoverySentAt (Some (clock w))
                   (withToken env issuedToken (clock w) recoverable)) in *.
  set (w1 := mkWorld (upsert issued (store w)) (clock w) (drawn w)
               (trace w
                ++ [Send "Password recovery"
                      (withToken env issuedToken (clock w) recoverable);
                    Save issued] ++ succeeded done issued)) in *.
  destruct (Hhash (set_password newPassword issued)) as [hash Hh].
  assert (Hlook1 : find (tokenCriteria token) (store w1) = Some issued).
  { cbn [w1 store]. apply find_upsert_only.
    - unfold tokenCriteria. cbn. exact Hself.
    - intros doc Hin. unfold tokenCriteria.
      destruct (recoveryToken doc) as [stored|] eqn:Hstored; [|reflexivity].
      exact (Hfresh doc stored Hin Hstored). }
  assert (Hexp1 : recoveryTokenExpiryAt issued = Some expiryAt)
    by reflexivity.
  pose proof (recoverChain_found env token issuedToken newPassword done w1
                issued expiryAt _ Hfind Hlook1 Hexp1 Hh (Hsave _)) as Hrec.
  cbv zeta in Hrec.
  assert (Hlive : clock w1 < expiryAt).
  { cbn [w1 clock]. unfold expiryAt, addDays, msPerDay. lia. }
  assert (Hlate : expiryReport env done (clock w1) issued = []).
  { unfold expiryReport. rewrite Hexp1.
    rewrite (isAfter_later (utils env) _ _ Hlive). reflexivity. }
  assert (Hver :
    verifyReport env done issuedToken expiryAt issued =
    [TokenizerMatch (getTimeString expiryAt) issuedToken (email recoverable)]).
  { unfold verifyReport. rewrite verifiesToken_not_passcode, Hmode.
    cbn [negb]. change (email issued) with (email recoverable).
    unfold issuedToken at 2. rewrite Hround. reflexivity. }
  rewrite Hlate, Hver in Hrec.
  exists issued, w1, issuedToken. eexists. eexists. exists hash.
  split.
  { rewrite requestRecover_of_chain, Hreq. reflexivity. }
  split; [reflexivity|].
  split.
  { rewrite (recover_compiled _ _ _ _ _ _ Hre), Hrec. reflexivity. }
  split; [reflexivity|]. split; [reflexivity|]. split; [reflexivity|].
  split; [exact Hh|]. split; [reflexivity|].
  split; [cbn [store]; apply upsert_In|reflexivity].
Qed.

Lemma requestRecover_then_recover_witness :
  exists token issued w1 final w2,
    RegExp (sampleEnv 1 None None) "8640200098641204699111109" "i" =
      Some token /\
    find (fun doc => String.eqb (email doc) "b@x.com")
      (store (worldAt 2000 [alice; bob])) = Some bob /\
    requestRecover (sampleEnv 1 None None)
      (fun doc => String.eqb (email doc) "b@x.com") false
      (worldAt 2000 [alice; bob]) = (Resolved (Some issued), w1) /\
    recoveryToken issued = Some "8640200098641204699111109" /\
    recover (sampleEnv 1 None None) "8640200098641204699111109" "NewPass1"
      false w1 = Returned (Resolved final) w2 /\
    password final = "hashed:NewPass1" /\
    recoveredAt final = Some 2000 /\
    In final (store w2).
Proof.
  assert (H3 : forall doc, saveFault (sampleEnv 1 None None) doc = None)
    by (intros doc; reflexivity).
  assert (H4 : forall doc, exists hash,
             hashPassword (sampleEnv 1 None None) doc =
             inr (set_password hash doc)).
  { intros doc. eexists. reflexivity. }
  assert (H6 : 0 < tokenLifeSpan (options (sampleEnv 1 None None)))
    by (simpl; lia).
  assert (H7 : forall seed subject,
             matches (tokenizer (utils (sampleEnv 1 None None)) seed)
               (encrypt (tokenizer (utils (sampleEnv 1 None None)) seed)
                  subject) subject = true).
  { intros seed subject. simpl. apply String.eqb_refl. }
  assert (H8 : RegExp (sampleEnv 1 None None)
                 (encrypt
                    (tokenizer (utils (sampleEnv 1 None None))
                       (getTimeString
                          (addDays (clock (worldAt 2000 [alice; bob]))
                             (tokenLifeSpan
                                (options (sampleEnv 1 None None))))))
                    (email bob)) "i" =
               Some (fun subject =>
                       occursIn (lowerCase "8640200098641204699111109")
                         (lowerCase subject))) by reflexivity.
  assert (H10 : forall doc stored,
             In doc (store (worldAt 2000 [alice; bob])) ->
             recoveryToken doc = Some stored ->
             (fun subject =>
                occursIn (lowerCase "8640200098641204699111109")
                  (lowerCase subject)) stored = false).
  { intros doc stored [Hd|[Hd|[]]] Hs; subst doc; simpl in Hs;
      injection Hs as <-; reflexivity. }
  destruct (requestRecover_then_recover (sampleEnv 1 None None)
              (fun doc => String.eqb (email doc) "b@x.com") "NewPass1" false
              (worldAt 2000 [alice; bob]) bob _
              eq_refl eq_refl H3 H4 eq_refl H6 H7 H8 eq_refl H10)
    as [issued [w1 [issuedToken [final [w2 [hash
         [Hreq [Htoken [Hrec [_ [_ [Hpass [Hh [Hat [Hin _]]]]]]]]]]]]]]].
  assert (Hval : issuedToken = "8640200098641204699111109").
  { assert (Hi : fst (requestRecover (sampleEnv 1 None None)
                        (fun doc => String.eqb (email doc) "b@x.com") false
                        (worldAt 2000 [alice; bob])) = Resolved (Some issued))
      by (rewrite Hreq; reflexivity).
    vm_compute in Hi. injection Hi as <-. simpl in Htoken.
    injection Htoken as <-. reflexivity. }
  subst issuedToken.
  assert (Hhash : hash = "hashed:NewPass1").
  { simpl in Hh. unfold markHashed in Hh. simpl in Hh.
    injection Hh as <-. reflexivity. }
  eexists. exists issued, w1, final, w2.
  split; [exact H8|]. split; [reflexivity|]. split; [exact Hreq|].
  split; [exact Htoken|]. split; [exact Hrec|].
  split; [rewrite Hpass; exact Hhash|]. split; [exact Hat|exact Hin].
Defined.

Lemma recoverChain_resolved_is_recovered
    env token rawToken newPassword done w final :
  fst (recoverChain env token rawToken newPassword done w) = Resolved final ->
  recoveredAt final = Some (clock w).
Proof.
  destruct (findFault env) as [error|] eqn:Hfind.
  { rewrite (recoverChain_lookup_fails _ _ _ _ _ _ _ Hfind). discriminate. }
  destruct (find (tokenCriteria token) (store w)) as [recoverable|] eqn:Hlook.
  2:{ rewrite (recoverChain_missing _ _ _ _ _ _ Hfind Hlook). discriminate. }
  destruct (recoveryTokenExpiryAt recoverable) as [expiryAt|] eqn:Hexp.
  2:{ rewrite (recoverChain_null_expiry _ _ _ _ _ _ _ Hfind Hlook Hexp).
      discriminate. }
  destruct (hashPassword env (set_password newPassword recoverable))
    as [error|hashed] eqn:Hhash.
  { rewrite (recoverChain_hash_fails _ _ _ _ _ _ _ _ _
               Hfind Hlook Hexp Hhash). discriminate. }
  destruct (saveFault env (set_recoveredAt (Some (clock w)) hashed))
    as [error|] eqn:Hsave.
  - rewrite (recoverChain_save_fails _ _ _ _ _ _ _ _ _ _
               Hfind Hlook Hexp Hhash Hsave). discriminate.
  - rewrite (recoverChain_found _ _ _ _ _ _ _ _ _
               Hfind Hlook Hexp Hhash Hsave).
    cbn. intros H. injection H as <-. reflexivity.
Qed.

(** X19. [recover] closes the cycle that [generateRecoveryToken] opens: the
    document of a resolved [recover] has [recoveredAt] set to the clock
    reading, whatever the hashing method returned, so [sendRecovery] on that
    document backs off, in any world: it resolves with the document and
    dispatches and saves nothing. *)
Theorem recover_then_sendRecovery_backs_off
    env rawToken newPassword done w final w' again later :
  recover env rawToken newPassword done w = Returned (Resolved final) w' ->
  recoveredAt final = Some (clock w) /\
  sendRecovery env again final later =
    (Resolved final, logged (succeeded again final) later).
Proof.
  intros Hrun. apply recover_returned in Hrun.
  destruct Hrun as [token [_ [Hres _]]]. symmetry in Hres.
  apply recoverChain_resolved_is_recovered in Hres.
  split; [exact Hres|].
  unfold sendRecovery, isRecovered. rewrite Hres.
  unfold andThen. rewrite callDone_succeeded. reflexivity.
Qed.

Lemma recover_then_sendRecovery_backs_off_witness :
  exists final w',
    recover (sampleEnv 1 None None) "100098641204699111109" "NewPass1" false
      (worldAt 500 [alice; bob]) = Returned (Resolved final) w' /\
    recoveredAt final = Some 500 /\
    sendRecovery (sampleEnv 1 None None) false final w' =
      (Resolved final, logged (succeeded false final) w').
Proof.
  eexists. eexists.
  assert (H : recover (sampleEnv 1 None None) "100098641204699111109"
                "NewPass1" false (worldAt 500 [alice; bob]) =
              Returned
                (Resolved
                   (mkEntity 2 "b@x.com" "hashed:NewPass1"
                      (Some "100098641204699111109") (Some 1000) (Some 400)
                      (Some 500)))
                (snd (recoverChain (sampleEnv 1 None None)
                        (fun subject =>
                           occursIn (lowerCase "100098641204699111109")
                             (lowerCase subject))
                        "100098641204699111109" "NewPass1" false
                        (worldAt 500 [alice; bob])))) by reflexivity.
  split; [exact H|].
  exact (recover_then_sendRecovery_backs_off (sampleEnv 1 None None)
           "100098641204699111109" "NewPass1" false
           (worldAt 500 [alice; bob]) _ _ false _ H).
Defined.

Lemma doneCalls_failed error : doneCalls (failed true error) = 1%nat.
Proof. reflexivity. Qed.

Lemma doneCalls_expiryReport env now recoverable :
  (doneCalls (expiryReport env true now recoverable) <= 1)%nat.
Proof.
  unfold expiryReport. destruct (isAfter _ _ _); simpl; lia.
Qed.

Lemma doneCalls_verifyReport env rawToken expiryAt recoverable :
  (doneCalls (verifyReport env true rawToken expiryAt recoverable) <= 1)%nat.
Proof.
  unfold verifyReport. destruct (verifiesToken _); [|simpl; lia].
  cbn [doneCalls]. destruct (matches _ _ _); simpl; lia.
Qed.

Lemma recoverChain_callbacks env token rawToken newPassword w :
  exists before,
    trace (snd (recoverChain env token rawToken newPassword true w)) =
      trace w ++ before
      ++ [toldOf (fst (recoverChain env token rawToken newPassword true w))]
    /\
    (doneCalls before <= 2)%nat.
Proof.
  destruct (findFault env) as [error|] eqn:Hfind.
  { rewrite (recoverChain_lookup_fails _ _ _ _ _ _ _ Hfind).
    exists []. split; [reflexivity|simpl; lia]. }
  destruct (find (tokenCriteria token) (store w)) as [recoverable|] eqn:Hlook.
  2:{ rewrite (recoverChain_missing _ _ _ _ _ _ Hfind Hlook).
      exists [Done (Some (Error "Invalid recovery token")) None].
      split; [reflexivity|simpl; lia]. }
  destruct (recoveryTokenExpiryAt recoverable) as [expiryAt|] eqn:Hexp.
  2:{ rewrite (recoverChain_null_expiry _ _ _ _ _ _ _ Hfind Hlook Hexp).
      exists (expiryReport env true (clock w) recoverable).
      split; [reflexivity|].
      pose proof (doneCalls_expiryReport env (clock w) recoverable). lia. }
  pose proof (doneCalls_expiryReport env (clock w) recoverable) as He.
  pose proof (doneCalls_verifyReport env rawToken expiryAt recoverable) as Hv.
  destruct (hashPassword env (set_password newPassword recoverable))
    as [error|hashed] eqn:Hhash.
  { rewrite (recoverChain_hash_fails _ _ _ _ _ _ _ _ _
               Hfind Hlook Hexp Hhash).
    exists (expiryReport env true (clock w) recoverable
            ++ verifyReport env true rawToken expiryAt recoverable
            ++ [EncryptPassword (set_password newPassword recoverable)]).
    split.
    - cbn [fst snd logged trace toldOf failed]. rewrite <- !app_assoc.
      reflexivity.
    - rewrite !doneCalls_app. simpl. lia. }
  destruct (saveFault env (set_recoveredAt (Some (clock w)) hashed))
    as [error|] eqn:Hsave.
  - rewrite (recoverChain_save_fails _ _ _ _ _ _ _ _ _ _
               Hfind Hlook Hexp Hhash Hsave).
    exists (expiryReport env true (clock w) recoverable
            ++ verifyReport env true rawToken expiryAt recoverable
            ++ [EncryptPassword (set_password newPassword recoverable);
                Save (set_recoveredAt (Some (clock w)) hashed)]).
    split.
    + cbn [fst snd logged trace toldOf failed]. rewrite <- !app_assoc.
      reflexivity.
    + rewrite !doneCalls_app. simpl. lia.
  - rewrite (recoverChain_found _ _ _ _ _ _ _ _ _
               Hfind Hlook Hexp Hhash Hsave).
    exists (expiryReport env true (clock w) recoverable
            ++ verifyReport env true rawToken expiryAt recoverable
            ++ [EncryptPassword (set_password newPassword recoverable);
                Save (set_recoveredAt (Some (clock w)) hashed)]).
    split.
    + cbn [fst snd trace toldOf succeeded]. rewrite <- !app_assoc.
      reflexivity.
    + rewrite !doneCalls_app. simpl. lia.
Qed.

(** X20. Unlike the other methods, [recover] may call its callback more than
    once.  In every run that returns a promise, the last thing done is the
    call that tells of how the promise settled, [done(null, recoverable)] or
    [done(error)], and before it the callback was called at most twice, with
    the errors the validation stages reported. *)
Theorem recover_calls_back_last_and_at_most_thrice
    env rawToken newPassword w result w' :
  recover env rawToken newPassword true w = Returned result w' ->
  exists before,
    trace w' = trace w ++ before ++ [toldOf result] /\
    (doneCalls before <= 2)%nat.
Proof.
  intros Hrun. apply recover_returned in Hrun.
  destruct Hrun as [token [_ [-> ->]]].
  apply recoverChain_callbacks.
Qed.

Lemma recover_calls_back_last_and_at_most_thrice_witness :
  exists result w' before,
    recover (sampleEnv 1 None None) "64120469911109" "NewPass1" true
      (worldAt 2000 [alice; bob]) = Returned result w' /\
    trace w' = trace (worldAt 2000 [alice; bob]) ++ before ++ [toldOf result]
    /\
    (doneCalls before <= 2)%nat.
Proof.
  assert (H : recover (sampleEnv 1 None None) "64120469911109" "NewPass1" true
                (worldAt 2000 [alice; bob]) =
              Returned
                (fst (recoverChain (sampleEnv 1 None None)
                        (fun subject =>
                           occursIn (lowerCase "64120469911109")
                             (lowerCase subject))
                        "64120469911109" "NewPass1" true
                        (worldAt 2000 [alice; bob])))
                (snd (recoverChain (sampleEnv 1 None None)
                        (fun subject =>
                           occursIn (lowerCase "64120469911109")
                             (lowerCase subject))
                        "64120469911109" "NewPass1" true
                        (worldAt 2000 [alice; bob])))) by reflexivity.
  destruct (recover_calls_back_last_and_at_most_thrice
              (sampleEnv 1 None None) "64120469911109" "NewPass1"
              (worldAt 2000 [alice; bob]) _ _ H) as [before [Htrace Hcount]].
  eexists. eexists. exists before.
  split; [exact H|]. split; [exact Htrace|exact Hcount].
Defined.

Lemma requestRecoverChain_issues_passcode env criteria done w recoverable :
  findFault env = None ->
  find criteria (store w) = Some recoverable ->
  (forall doc, saveFault env doc = None) ->
  tokenType (options env) = Some "passcode" ->
  let token := digitsFrom (randomSource env) (drawn w) 6 in
  let generated := withToken env token (clock w) recoverable in
  let sent := set_recoverySentAt (Some (clock w)) generated in
  requestRecoverChain env criteria done w =
  (Resolved (Some sent),
   mkWorld (upsert sent (store w)) (clock w) (drawn w + 6)
     (trace w ++ [Send "Password recovery" generated; Save sent]
      ++ succeeded done sent)).
Proof.
  intros Hfind Hfound Hsave Hmode. cbv zeta.
  destruct (generateRecoveryToken_run env false recoverable w)
    as [token [Hrun Htoken]].
  rewrite Hmode, isPasscode_passcode in Hrun, Htoken. subst token.
  unfold requestRecoverChain.
  unfold andThen at 1. unfold findOne. rewrite Hfind, Hfound.
  unfold andThen at 1. unfold resolve at 1.
  unfold andThen at 1. rewrite Hrun.
  unfold andThen at 1.
  rewrite sendRecovery_dispatches by reflexivity. cbv zeta.
  rewrite Hsave. unfold andThen. rewrite callDone_succeeded.
  unfold resolve, logged. simpl.
  rewrite !app_nil_r, <- !app_assoc. reflexivity.
Qed.

(** X21. In passcode mode a passcode issued by [requestRecover] is accepted
    by [recover].  With a positive life span, a pattern compiled from the
    passcode that matches it and no token stored before, a hashing method
    that touches the password only and saves that go through:
    [requestRecover] resolves with a document whose token is six decimal
    digits, and [recover] with these digits then resolves with the same
    user, the password replaced and [recoveredAt] set, the tokenizer never
    having been asked and no error having been told to the callback. *)
Theorem requestRecover_then_recover_passcode
    env criteria newPassword done w recoverable token :
  findFault env = None ->
  find criteria (store w) = Some recoverable ->
  (forall doc, saveFault env doc = None) ->
  (forall doc, exists hash,
     hashPassword env doc = inr (set_password hash doc)) ->
  tokenType (options env) = Some "passcode" ->
  0 < tokenLifeSpan (options env) ->
  RegExp env (digitsFrom (randomSource env) (drawn w) 6) "i" = Some token ->
  token (digitsFrom (randomSource env) (drawn w) 6) = true ->
  (forall doc stored,
     In doc (store w) -> recoveryToken doc = Some stored ->
     token stored = false) ->
  exists issued w1 passcode final w2 hash,
    requestRecover env criteria done w = (Resolved (Some issued), w1) /\
    recoveryToken issued = Some passcode /\
    String.length passcode = 6%nat /\
    allChars isDigit passcode = true /\
    recover env passcode newPassword done w1 =
      Returned (Resolved final) w2 /\
    _id final = _id recoverable /\
    password final = hash /\
    hashPassword env (set_password newPassword issued) =
      inr (set_password hash (set_password newPassword issued)) /\
    recoveredAt final = Some (clock w) /\
    In final (store w2) /\
    trace w2 =
      trace w1
      ++ [EncryptPassword (set_password newPassword issued); Save final]
      ++ succeeded done final.
Proof.
  intros Hfind Hlook Hsave Hhash Hmode Hspan Hre Hself Hfresh.
  pose proof (requestRecoverChain_issues_passcode env criteria done w
                recoverable Hfind Hlook Hsave Hmode) as Hreq.
  cbv zeta in Hreq.
  set (expiryAt := addDays (clock w) (tokenLifeSpan (options env))) in *.
  set (passcode := digitsFrom (randomSource env) (drawn w) 6) in *.
  set (issued := set_recoverySentAt (Some (clock w))
                   (withToken env passcode (clock w) recoverable)) in *.
  set (w1 := mkWorld (upsert issued (store w)) (clock w) (drawn w + 6)
               (trace w
                ++ [Send "Password recovery"
                      (withToken env passcode (clock w) recoverable);
                    Save issued] ++ succeeded done issued)) in *.
  destruct (Hhash (set_password newPassword issued)) as [hash Hh].
  assert (Hlook1 : find (tokenCriteria token) (store w1) = Some issued).
  { cbn [w1 store]. apply find_upsert_only.
    - unfold tokenCriteria. cbn. exact Hself.
    - intros doc Hin. unfold tokenCriteria.
      destruct (recoveryToken doc) as [stored|] eqn:Hstored; [|reflexivity].
      exact (Hfresh doc stored Hin Hstored). }
  assert (Hexp1 : recoveryTokenExpiryAt issued = Some expiryAt)
    by reflexivity.
  pose proof (recoverChain_found env token passcode newPassword done w1
                issued expiryAt _ Hfind Hlook1 Hexp1 Hh (Hsave _)) as Hrec.
  cbv zeta in Hrec.
  assert (Hlive : clock w1 < expiryAt).
  { cbn [w1 clock]. unfold expiryAt, addDays, msPerDay. lia. }
  assert (Hlate : expiryReport env done (clock w1) issued = []).
  { unfold expiryReport. rewrite Hexp1.
    rewrite (isAfter_later (utils env) _ _ Hlive). reflexivity. }
  assert (Hver : verifyReport env done passcode expiryAt issued = []).
  { unfold verifyReport. rewrite verifiesToken_not_passcode, Hmode.
    reflexivity. }
  rewrite Hlate, Hver in Hrec.
  exists issued, w1, passcode. eexists. eexists. exists hash.
  split.
  { rewrite requestRecover_of_chain, Hreq. reflexivity. }
  split; [reflexivity|].
  split; [apply digitsFrom_length|]. split; [apply digitsFrom_digits|].
  split.
  { rewrite (recover_compiled _ _ _ _ _ _ Hre), Hrec. reflexivity. }
  split; [reflexivity|]. split; [reflexivity|].
  split; [exact Hh|]. split; [reflexivity|].
  split; [cbn [store]; apply upsert_In|reflexivity].
Qed.

Lemma requestRecover_then_recover_passcode_witness :
  exists token issued w1 final w2,
    RegExp (sampleEnv 1 (Some "passcode") None) "307418" "i" = Some token /\
    find (fun doc => String.eqb (email doc) "b@x.com")
      (store (worldAt 2000 [alice; bob])) = Some bob /\
    requestRecover (sampleEnv 1 (Some "passcode") None)
      (fun doc => String.eqb (email doc) "b@x.com") false
      (worldAt 2000 [alice; bob]) = (Resolved (Some issued), w1) /\
    recoveryToken issued = Some "307418" /\
    recover (sampleEnv 1 (Some "passcode") None) "307418" "NewPass1" false w1
      = Returned (Resolved final) w2 /\
    recoveredAt final = Some 2000 /\
    In final (store w2).
Proof.
  assert (H3 : forall doc,
             saveFault (sampleEnv 1 (Some "passcode") None) doc = None)
    by (intros doc; reflexivity).
  assert (H4 : forall doc, exists hash,
             hashPassword (sampleEnv 1 (Some "passcode") None) doc =
             inr (set_password hash doc)).
  { intros doc. eexists. reflexivity. }
  assert (H6 : 0 < tokenLifeSpan (options (sampleEnv 1 (Some "passcode") None)))
    by (simpl; lia).
  assert (H7 : RegExp (sampleEnv 1 (Some "passcode") None)
                 (digitsFrom
                    (randomSource (sampleEnv 1 (Some "passcode") None))
                    (drawn (worldAt 2000 [alice; bob])) 6) "i" =
               Some (fun subject =>
                       occursIn (lowerCase "307418") (lowerCase subject)))
    by reflexivity.
  assert (H9 : forall doc stored,
             In doc (store (worldAt 2000 [alice; bob])) ->
             recoveryToken doc = Some stored ->
             (fun subject =>
                occursIn (lowerCase "307418") (lowerCase subject)) stored
             = false).
  { intros doc stored [Hd|[Hd|[]]] Hs; subst doc; simpl in Hs;
      injection Hs as <-; reflexivity. }
  destruct (requestRecover_then_recover_passcode
              (sampleEnv 1 (Some "passcode") None)
              (fun doc => String.eqb (email doc) "b@x.com") "NewPass1" false
              (worldAt 2000 [alice; bob]) bob _
              eq_refl eq_refl H3 H4 eq_refl H6 H7 eq_refl H9)
    as [issued [w1 [passcode [final [w2 [hash
         [Hreq [Htoken [_ [_ [Hrec [_ [_ [_ [Hat [Hin _]]]]]]]]]]]]]]]].
  assert (Hval : passcode = "307418").
  { assert (Hi : fst (requestRecover (sampleEnv 1 (Some "passcode") None)
                        (fun doc => String.eqb (email doc) "b@x.com") false
                        (worldAt 2000 [alice; bob])) = Resolved (Some issued))
      by (rewrite Hreq; reflexivity).
    vm_compute in Hi. injection Hi as <-. simpl in Htoken.
    injection Htoken as <-. reflexivity. }
  subst passcode.
  eexists. exists issued, w1, final, w2.
  split; [exact H7|]. split; [reflexivity|]. split; [exact Hreq|].
  split; [exact Htoken|]. split; [exact Hrec|].
  split; [exact Hat|exact Hin].
Defined.
